(** * AnimalShelter: a CRUD data-access object over a document store

    Shallow embedding of the two variants of the [AnimalShelter] class:

    - [Baseline]: downloads/original/CRUD_Python_Module.py
    - [Enhanced]: downloads/enhanced/CRUD_Python_Module_Enhanced.py

    The store client (pymongo) is an external collaborator.  It is modelled
    as a record of operations over an abstract store state, each of which
    either returns or raises; every call made to it is recorded in a trace
    together with what came back, as are the lines printed and logged. *)

From stdpp Require Import gmap strings list fin_maps.
From Stdlib Require Import ZArith.

Set Warnings "-register-all".

Local Open Scope string_scope.
Local Open Scope list_scope.
Local Open Scope Z_scope.

(** ** Python values *)

(** Dynamically typed values, as far as the class inspects them:
    [isinstance(x, dict)], [isinstance(x, int)], [x is None] and
    truthiness ([not x], [if x:]). *)
Inductive value : Type :=
  | VNone
  | VBool (b : bool)
  | VInt (n : Z)
  | VStr (s : string)
  | VList (l : list value)
  | VDict (d : gmap string value).

(** A document is the content of a Python [dict]. *)
Abbreviation doc := (gmap string value).

(** [len(d) == 0] *)
Definition dict_is_empty {V : Type} (d : gmap string V) : bool :=
  Nat.eqb (size d) 0.

(** [bool(x)] *)
Definition truthy (v : value) : bool :=
  match v with
  | VNone => false
  | VBool b => b
  | VInt n => negb (Z.eqb n 0)
  | VStr s => negb (String.eqb s "")
  | VList l => match l with [] => false | _ => true end
  | VDict d => negb (dict_is_empty d)
  end.

(** [isinstance(x, dict)] *)
Definition isinstance_dict (v : value) : bool :=
  match v with VDict _ => true | _ => false end.

(** [isinstance(x, int)]; [bool] is a subclass of [int]. *)
Definition isinstance_int (v : value) : bool :=
  match v with VInt _ | VBool _ => true | _ => false end.

(** The integer an [int] instance compares as. *)
Definition int_value (v : value) : Z :=
  match v with
  | VInt n => n
  | VBool b => if b then 1 else 0
  | _ => 0
  end.

(** ** Exceptions *)

Inductive exn_class : Type :=
  | ValueError
  | RuntimeError
  | TypeError
  | PyMongoError
  | ServerSelectionTimeoutError
  | OtherException.

Record exn : Type := Exn { exn_cls : exn_class; exn_msg : string }.

(** [isinstance(e, PyMongoError)]: [ServerSelectionTimeoutError] derives
    from [PyMongoError]. *)
Definition is_PyMongoError (e : exn) : bool :=
  match exn_cls e with
  | PyMongoError | ServerSelectionTimeoutError => true
  | _ => false
  end.

(** Everything the model can raise derives from [Exception]. *)
Definition is_Exception (e : exn) : bool := true.

Inductive outcome (A : Type) : Type :=
  | Ok (a : A)
  | Raise (e : exn).
Arguments Ok {A} a.
Arguments Raise {A} e.

(** ** The store client

    What the class asks of pymongo.  [MongoClient(...)], the [ping] command
    and the collection and cursor methods are the only points where the
    class leaves its own code. *)

(** Keyword arguments of [MongoClient(...)]; a keyword a variant does not
    pass is [None]. *)
Record conn_params : Type := ConnParams {
  cp_host : string;
  cp_port : Z;
  cp_username : value;
  cp_password : value;
  cp_authSource : string;
  cp_authMechanism : option string;
  cp_directConnection : option bool;
  cp_serverSelectionTimeoutMS : Z
}.

(** [InsertOneResult], [UpdateResult], [DeleteResult]: the attributes the
    class reads.  A count the server did not report is [None]. *)
Record insert_result : Type := InsertOneResult {
  acknowledged : bool;
  inserted_id : value
}.

Record update_result : Type := UpdateResult {
  matched_count : option Z;
  modified_count : option Z
}.

Record delete_result : Type := DeleteResult {
  deleted_count : option Z
}.

(** [client[db][col]] *)
Record collection_of (H : Type) : Type := Collection {
  coll_client : H;
  coll_db : string;
  coll_name : string
}.
Arguments Collection {H} _ _ _.
Arguments coll_client {H} _.
Arguments coll_db {H} _.
Arguments coll_name {H} _.

Record Client : Type := {
  store_state : Type;
  handle : Type;
  cursor : Type;
  mongo_client : conn_params -> store_state -> outcome handle * store_state;
  ping : handle -> store_state -> outcome unit * store_state;
  client_close : handle -> store_state -> outcome unit * store_state;
  insert_one :
    collection_of handle -> value -> store_state ->
    outcome insert_result * store_state;
  find :
    collection_of handle -> value -> option (gmap string Z) -> store_state ->
    outcome cursor * store_state;
  cursor_sort :
    cursor -> list (string * Z) -> store_state -> outcome cursor * store_state;
  cursor_limit :
    cursor -> value -> store_state -> outcome cursor * store_state;
  cursor_list : cursor -> store_state -> outcome (list doc) * store_state;
  update_one :
    collection_of handle -> value -> value -> bool -> store_state ->
    outcome update_result * store_state;
  update_many :
    collection_of handle -> value -> value -> bool -> store_state ->
    outcome update_result * store_state;
  delete_one :
    collection_of handle -> value -> store_state ->
    outcome delete_result * store_state;
  delete_many :
    collection_of handle -> value -> store_state ->
    outcome delete_result * store_state
}.

(** ** Observable effects *)

(** A request sent to the store client, with its arguments. *)
Inductive call : Type :=
  | CMongoClient (p : conn_params)
  | CPing
  | CClose
  | CInsertOne (data : value)
  | CFind (query : value) (projection : option (gmap string Z))
  | CSort (spec : list (string * Z))
  | CLimit (n : value)
  | CIterate
  | CUpdateOne (query update_doc : value) (upsert : bool)
  | CUpdateMany (query update_doc : value) (upsert : bool)
  | CDeleteOne (query : value)
  | CDeleteMany (query : value).

Inductive call_result : Type :=
  | Returned
  | Raised (e : exn).

Inductive level : Type := INFO | ERROR.

Inductive log_arg : Type :=
  | LStr (s : string)
  | LInt (n : Z)
  | LBool (b : bool)
  | LVal (v : value)
  | LExn (e : exn).

Inductive event : Type :=
  | Call (c : call) (r : call_result)
  | Print (line : string)
  | Log (lvl : level) (fmt : string) (args : list log_arg).

Definition is_call (ev : event) : bool :=
  match ev with Call _ _ => true | _ => false end.

(** The requests that reached the store client, oldest first. *)
Definition store_calls (tr : list event) : list event := filter is_call tr.

(** The store client raised [e] on some request of the trace. *)
Definition store_raised (e : exn) (tr : list event) : Prop :=
  exists c, Call c (Raised e) ∈ tr.

(** ** The world and the effect monad *)

Record world (cl : Client) : Type := World {
  w_store : store_state cl;
  w_environ : gmap string string;
  w_trace : list event
}.
Arguments World {cl} _ _ _.
Arguments w_store {cl} _.
Arguments w_environ {cl} _.
Arguments w_trace {cl} _.

Definition M (cl : Client) (A : Type) : Type := world cl -> outcome A * world cl.

Section Monad.
Context {cl : Client}.

Definition ret {A} (a : A) : M cl A := fun w => (Ok a, w).

Definition raise {A} (e : exn) : M cl A := fun w => (Raise e, w).

Definition bind {A B} (m : M cl A) (f : A -> M cl B) : M cl B :=
  fun w =>
    match m w with
    | (Ok a, w') => f a w'
    | (Raise e, w') => (Raise e, w')
    end.

(** [try: m  except <catches> as e: h e] *)
Definition try_except {A} (m : M cl A) (catches : exn -> bool)
    (h : exn -> M cl A) : M cl A :=
  fun w =>
    match m w with
    | (Ok a, w') => (Ok a, w')
    | (Raise e, w') => if catches e then h e w' else (Raise e, w')
    end.

Definition emit (ev : event) : M cl unit :=
  fun w => (Ok tt, World (w_store w) (w_environ w) (w_trace w ++ [ev])).

Definition result_of {A} (r : outcome A) : call_result :=
  match r with Ok _ => Returned | Raise e => Raised e end.

(** One request to the store client: run it on the store and record the
    request and how it ended. *)
Definition call_store {A} (c : call)
    (op : store_state cl -> outcome A * store_state cl) : M cl A :=
  fun w =>
    let (r, s') := op (w_store w) in
    (r, World s' (w_environ w) (w_trace w ++ [Call c (result_of r)])).

(** [os.getenv(name)]: the value as a [str], or [None]. *)
Definition getenv (name : string) : M cl value :=
  fun w =>
    (Ok (match w_environ w !! name with Some s => VStr s | None => VNone end),
     w).

(** [print(line)] *)
Definition print (line : string) : M cl unit := emit (Print line).

(** [logger.info(fmt, *args)], [logger.error(fmt, *args)] *)
Definition logger_info (fmt : string) (args : list log_arg) : M cl unit :=
  emit (Log INFO fmt args).
Definition logger_error (fmt : string) (args : list log_arg) : M cl unit :=
  emit (Log ERROR fmt args).
End Monad.

Notation "x <- m ;; k" := (bind m (fun x => k))
  (at level 100, m at next level, right associativity).
Notation "m ;;; k" := (bind m (fun _ => k))
  (at level 100, right associativity).

(** [int(x)] on a count attribute: [int(None)] is a [TypeError]. *)
Definition py_int {cl} (c : option Z) : M cl Z :=
  match c with
  | Some n => ret n
  | None =>
      raise (Exn TypeError
        "int() argument must be a string, a bytes-like object or a real number, not 'NoneType'")
  end.

(** [c or d] on a count attribute: [d] when [c] is [None] or [0]. *)
Definition py_or (c : option Z) (d : Z) : Z :=
  match c with
  | Some n => if Z.eqb n 0 then d else n
  | None => d
  end.

(** ** downloads/original/CRUD_Python_Module.py

    Arguments the class inspects at run time ([data], [query],
    [update_doc], [limit], [user], [password]) are [value]s; those it only
    tests for presence and passes on ([projection], [sort]) and the flags
    have the type of their annotation.  [client[db][col]] builds a handle
    and sends nothing. *)

Module Baseline.
Section WithClient.
Context {cl : Client}.

(** Attributes of an instance. *)
Record AnimalShelter : Type := {
  _client : handle cl;
  database : string;
  collection : collection_of (handle cl)
}.

Definition default_user : value := VStr "aacuser".
Definition default_password : value := VStr "SNHU1234".

Definition __init__ (user password : value) (host : string) (port : Z)
    (db col auth_source auth_mechanism : string)
    (server_selection_timeout_ms : Z) : M cl AnimalShelter :=
  if negb (truthy user) || negb (truthy password) then
    raise (Exn ValueError "Both 'user' and 'password' are required.")
  else
    let params :=
      {| cp_host := host;
         cp_port := port;
         cp_username := user;
         cp_password := password;
         cp_authSource := auth_source;
         cp_authMechanism := Some auth_mechanism;
         cp_directConnection := Some true;
         cp_serverSelectionTimeoutMS := server_selection_timeout_ms |} in
    client <- call_store (CMongoClient params) (mongo_client cl params) ;;
    call_store CPing (ping cl client) ;;;
    ret {| _client := client;
           database := db;
           collection := Collection client db col |}.

Definition create (self : AnimalShelter) (data : value) : M cl bool :=
  if negb (isinstance_dict data) || negb (truthy data) then
    raise (Exn ValueError "'data' must be a non-empty dict.")
  else
    try_except
      (res <- call_store (CInsertOne data)
                (insert_one cl (collection self) data) ;;
       ret (acknowledged res && truthy (inserted_id res)))
      is_PyMongoError
      (fun e =>
         print ("[ERROR] Create failed: " +:+ exn_msg e) ;;;
         ret false).

Definition read (self : AnimalShelter) (query : value)
    (projection : option (gmap string Z)) (limit : value)
    (sort : option (list (string * Z))) : M cl (list doc) :=
  let query := match query with VNone => VDict ∅ | _ => query end in
  if negb (isinstance_dict query) then
    raise (Exn ValueError "'query' must be a dict.")
  else
    try_except
      (cursor <- call_store (CFind query projection)
                   (find cl (collection self) query projection) ;;
       cursor <- match sort with
                 | Some ((_ :: _) as spec) =>
                     call_store (CSort spec) (cursor_sort cl cursor spec)
                 | _ => ret cursor
                 end ;;
       cursor <- (if isinstance_int limit && (0 <? int_value limit)
                  then call_store (CLimit limit) (cursor_limit cl cursor limit)
                  else ret cursor) ;;
       call_store CIterate (cursor_list cl cursor))
      is_PyMongoError
      (fun e =>
         print ("[ERROR] Read failed: " +:+ exn_msg e) ;;;
         ret []).

Definition update (self : AnimalShelter) (query update_doc : value)
    (many upsert : bool) : M cl Z :=
  if negb (isinstance_dict query) || negb (isinstance_dict update_doc) then
    raise (Exn ValueError "'query' and 'update_doc' must be dicts.")
  else
    try_except
      (res <- (if many
               then call_store (CUpdateMany query update_doc upsert)
                      (update_many cl (collection self) query update_doc upsert)
               else call_store (CUpdateOne query update_doc upsert)
                      (update_one cl (collection self) query update_doc upsert)) ;;
       py_int (modified_count res))
      is_PyMongoError
      (fun e =>
         print ("[ERROR] Update failed: " +:+ exn_msg e) ;;;
         ret 0).

Definition delete (self : AnimalShelter) (query : value) (many : bool)
    : M cl Z :=
  if negb (isinstance_dict query) then
    raise (Exn ValueError "'query' must be a dict.")
  else
    try_except
      (res <- (if many
               then call_store (CDeleteMany query)
                      (delete_many cl (collection self) query)
               else call_store (CDeleteOne query)
                      (delete_one cl (collection self) query)) ;;
       py_int (deleted_count res))
      is_PyMongoError
      (fun e =>
         print ("[ERROR] Delete failed: " +:+ exn_msg e) ;;;
         ret 0).

Definition close (self : AnimalShelter) : M cl unit :=
  try_except
    (call_store CClose (client_close cl (_client self)))
    is_Exception
    (fun _ => ret tt).
End WithClient.
Arguments AnimalShelter : clear implicits.
End Baseline.


(** ** downloads/enhanced/CRUD_Python_Module_Enhanced.py *)

Module Enhanced.

(** [_clean_results]: the loop, with [cleaned] as accumulator.  Each
    iteration copies the document ([dict(doc)]), pops ["_id"] from the copy
    and appends the copy.  On values, the copy is the document itself; the
    heap-level reading of the same loop is [Heap._clean_results]. *)
Fixpoint _clean_results_loop (cleaned : list doc) (docs : list doc)
    : list doc :=
  match docs with
  | [] => cleaned
  | doc :: docs' =>
      let d := doc in
      let d := delete "_id" d in
      _clean_results_loop (cleaned ++ [d]) docs'
  end.

Definition _clean_results (docs : list doc) : list doc :=
  _clean_results_loop [] docs.

Section WithClient.
Context {cl : Client}.

(** Attributes of an instance; [_client] is [None] once closed. *)
Record AnimalShelter : Type := {
  _client : option (handle cl);
  _db_name : string;
  _col_name : string
}.

Definition __init__ (user password : value) (host : string) (port : Z)
    (db col authSource : string) : M cl AnimalShelter :=
  env_user <- getenv "AAC_DB_USER" ;;
  env_pass <- getenv "AAC_DB_PASS" ;;
  let user := if truthy env_user then env_user else user in
  let password := if truthy env_pass then env_pass else password in
  if negb (truthy user) || negb (truthy password) then
    raise (Exn ValueError "MongoDB user and password must be provided")
  else
    let params :=
      {| cp_host := host;
         cp_port := port;
         cp_username := user;
         cp_password := password;
         cp_authSource := authSource;
         cp_authMechanism := None;
         cp_directConnection := None;
         cp_serverSelectionTimeoutMS := 5000 |} in
    try_except
      (logger_info "Connecting to MongoDB at %s:%s" [LStr host; LInt port] ;;;
       client <- call_store (CMongoClient params) (mongo_client cl params) ;;
       call_store CPing (ping cl client) ;;;
       logger_info "Successfully connected to MongoDB" [] ;;;
       ret {| _client := Some client; _db_name := db; _col_name := col |})
      is_PyMongoError
      (fun exc =>
         logger_error "Failed to connect to MongoDB: %s" [LExn exc] ;;;
         raise exc).

(** The [collection] property. *)
Definition collection (self : AnimalShelter)
    : M cl (collection_of (handle cl)) :=
  match _client self with
  | None => raise (Exn RuntimeError "MongoDB client is not initialized")
  | Some client => ret (Collection client (_db_name self) (_col_name self))
  end.

Definition create (self : AnimalShelter) (data : value) : M cl bool :=
  if negb (isinstance_dict data) || negb (truthy data) then
    raise (Exn ValueError "create() expects a non-empty dict")
  else
    try_except
      (coll <- collection self ;;
       result <- call_store (CInsertOne data) (insert_one cl coll data) ;;
       let success := acknowledged result && truthy (inserted_id result) in
       logger_info "Inserted document with _id=%s (success=%s)"
         [LVal (inserted_id result); LBool success] ;;;
       ret success)
      is_PyMongoError
      (fun exc =>
         logger_error "Error inserting document: %s" [LExn exc] ;;;
         raise exc).

Definition read (self : AnimalShelter) (query : value)
    (projection : option (gmap string Z)) (limit : value)
    (sort : option (list (string * Z))) : M cl (list doc) :=
  let query := match query with VNone => VDict ∅ | _ => query end in
  if negb (isinstance_dict query) then
    raise (Exn ValueError "read() expects query to be a dict or None")
  else
    try_except
      (coll <- collection self ;;
       cursor <- call_store (CFind query projection)
                   (find cl coll query projection) ;;
       cursor <- match sort with
                 | Some ((_ :: _) as spec) =>
                     call_store (CSort spec) (cursor_sort cl cursor spec)
                 | _ => ret cursor
                 end ;;
       cursor <- (if isinstance_int limit && (0 <? int_value limit)
                  then call_store (CLimit limit) (cursor_limit cl cursor limit)
                  else ret cursor) ;;
       raw_results <- call_store CIterate (cursor_list cl cursor) ;;
       let results := _clean_results raw_results in
       logger_info "Read %d document(s) from collection"
         [LInt (Z.of_nat (length results))] ;;;
       ret results)
      is_PyMongoError
      (fun exc =>
         logger_error "Error reading documents: %s" [LExn exc] ;;;
         raise exc).

Definition update (self : AnimalShelter) (query update_doc : value)
    (many upsert : bool) : M cl Z :=
  if negb (isinstance_dict query) || negb (truthy query) then
    raise (Exn ValueError "update() expects a non-empty query dict")
  else if negb (isinstance_dict update_doc) || negb (truthy update_doc) then
    raise (Exn ValueError "update() expects a non-empty update_doc dict")
  else
    try_except
      (coll <- collection self ;;
       result <- (if many
                  then call_store (CUpdateMany query update_doc upsert)
                         (update_many cl coll query update_doc upsert)
                  else call_store (CUpdateOne query update_doc upsert)
                         (update_one cl coll query update_doc upsert)) ;;
       let modified_count := py_or (modified_count result) 0 in
       logger_info "Updated %d document(s)" [LInt modified_count] ;;;
       ret modified_count)
      is_PyMongoError
      (fun exc =>
         logger_error "Error updating document(s): %s" [LExn exc] ;;;
         raise exc).

Definition delete (self : AnimalShelter) (query : value) (many : bool)
    : M cl Z :=
  if negb (isinstance_dict query) || negb (truthy query) then
    raise (Exn ValueError "delete() expects a non-empty query dict")
  else
    try_except
      (coll <- collection self ;;
       result <- (if many
                  then call_store (CDeleteMany query) (delete_many cl coll query)
                  else call_store (CDeleteOne query) (delete_one cl coll query)) ;;
       let deleted_count := py_or (deleted_count result) 0 in
       logger_info "Deleted %d document(s)" [LInt deleted_count] ;;;
       ret deleted_count)
      is_PyMongoError
      (fun exc =>
         logger_error "Error deleting document(s): %s" [LExn exc] ;;;
         raise exc).

(** [close] assigns [self._client = None] as its last statement: it returns
    the instance as it is afterwards.  When the client's own [close]
    raises, the assignment is not reached and the instance is unchanged. *)
Definition close (self : AnimalShelter) : M cl AnimalShelter :=
  match _client self with
  | Some client =>
      logger_info "Closing MongoDB client connection" [] ;;;
      call_store CClose (client_close cl client) ;;;
      ret {| _client := None;
             _db_name := _db_name self;
             _col_name := _col_name self |}
  | None => ret self
  end.
End WithClient.
Arguments AnimalShelter : clear implicits.
End Enhanced.


(** ** [_clean_results] on the heap

    Python dicts are mutable objects reached through references, and
    [_clean_results] is handed a list of such references.  To say what it
    does to the objects it is given, the same loop is read here over a heap
    of dict objects: [dict(doc)] allocates a new object with the items of
    [doc], and [d.pop("_id", None)] updates the object [d] refers to. *)

Module Heap.

Abbreviation loc := positive.
Abbreviation heap := (gmap positive (gmap string value)).

(** [dict(doc)]: a new dict object holding the items of [doc]. *)
Definition dict_copy (doc : loc) (h : heap) : option (loc * heap) :=
  match h !! doc with
  | Some items => let d := fresh (dom h) in Some (d, <[d := items]> h)
  | None => None
  end.

(** [d.pop(key, None)]: remove [key] from the object, if present. *)
Definition dict_pop (d : loc) (key : string) (h : heap) : option heap :=
  match h !! d with
  | Some items => Some (<[d := delete key items]> h)
  | None => None
  end.

Fixpoint _clean_results_loop (cleaned : list loc) (docs : list loc) (h : heap)
    : option (list loc * heap) :=
  match docs with
  | [] => Some (cleaned, h)
  | doc :: docs' =>
      match dict_copy doc h with
      | Some (d, h1) =>
          match dict_pop d "_id" h1 with
          | Some h2 => _clean_results_loop (cleaned ++ [d]) docs' h2
          | None => None
          end
      | None => None
      end
  end.

Definition _clean_results (docs : list loc) (h : heap)
    : option (list loc * heap) :=
  _clean_results_loop [] docs h.

(** The dict objects behind a list of references. *)
Definition deref (h : heap) (ls : list loc) : list (option doc) :=
  (fun l => h !! l) <$> ls.

End Heap.

(** ** A test double for the store client

    A client without a server behind it: every request answers from a fixed
    configuration, or raises the exception the configuration names for that
    request. *)

Module Mock.

Record config : Type := {
  mc_docs : list doc;
  mc_insert : insert_result;
  mc_update : update_result;
  mc_delete : delete_result;
  mc_fail : call -> option exn
}.

Definition answer {A} (cfg : config) (c : call) (a : A) (s : unit)
    : outcome A * unit :=
  match mc_fail cfg c with
  | Some e => (Raise e, s)
  | None => (Ok a, s)
  end.

Definition client (cfg : config) : Client := {|
  store_state := unit;
  handle := unit;
  cursor := unit;
  mongo_client := fun p => answer cfg (CMongoClient p) tt;
  ping := fun _ => answer cfg CPing tt;
  client_close := fun _ => answer cfg CClose tt;
  insert_one := fun _ data => answer cfg (CInsertOne data) (mc_insert cfg);
  find := fun _ q p => answer cfg (CFind q p) tt;
  cursor_sort := fun _ spec => answer cfg (CSort spec) tt;
  cursor_limit := fun _ n => answer cfg (CLimit n) tt;
  cursor_list := fun _ => answer cfg CIterate (mc_docs cfg);
  update_one := fun _ q u up => answer cfg (CUpdateOne q u up) (mc_update cfg);
  update_many := fun _ q u up => answer cfg (CUpdateMany q u up) (mc_update cfg);
  delete_one := fun _ q => answer cfg (CDeleteOne q) (mc_delete cfg);
  delete_many := fun _ q => answer cfg (CDeleteMany q) (mc_delete cfg)
|}.

Definition rex : doc :=
  {[ "_id" := VStr "65a1"; "name" := VStr "Rex"; "breed" := VStr "Beagle" ]}.
Definition luna : doc :=
  {[ "_id" := VStr "65a2"; "name" := VStr "Luna" ]}.

(** A server that answers every request. *)
Definition up : config := {|
  mc_docs := [rex; luna];
  mc_insert := InsertOneResult true (VStr "65a3");
  mc_update := UpdateResult (Some 1) (Some 1);
  mc_delete := DeleteResult (Some 1);
  mc_fail := fun _ => None
|}.

(** A server that reports no modified or deleted count. *)
Definition up_no_count : config := {|
  mc_docs := [rex; luna];
  mc_insert := InsertOneResult true (VStr "65a3");
  mc_update := UpdateResult (Some 1) None;
  mc_delete := DeleteResult None;
  mc_fail := fun _ => None
|}.

Definition timeout : exn :=
  Exn ServerSelectionTimeoutError "localhost:27017: timed out".

(** A server that cannot be reached: the client object is built, every
    request to the server raises. *)
Definition down : config := {|
  mc_docs := [];
  mc_insert := InsertOneResult false VNone;
  mc_update := UpdateResult None None;
  mc_delete := DeleteResult None;
  mc_fail := fun c =>
    match c with
    | CMongoClient _ | CFind _ _ | CSort _ | CLimit _ | CClose => None
    | _ => Some timeout
    end
|}.



(** A client whose cursor fails on [sort] and answers everything else. *)
Definition sort_fails : config := {|
  mc_docs := [rex; luna];
  mc_insert := InsertOneResult true (VStr "65a3");
  mc_update := UpdateResult (Some 1) (Some 1);
  mc_delete := DeleteResult (Some 1);
  mc_fail := fun c =>
    match c with
    | CSort _ => Some timeout
    | _ => None
    end
|}.

(** A server without documents whose writes are not acknowledged. *)
Definition empty : config := {|
  mc_docs := [];
  mc_insert := InsertOneResult false (VStr "65a3");
  mc_update := UpdateResult (Some 0) (Some 0);
  mc_delete := DeleteResult (Some 0);
  mc_fail := fun _ => None
|}.

(** The world of a mock client after the events [tr]. *)
Definition after (cfg : config) (environ : gmap string string)
    (tr : list event) : world (client cfg) :=
  World (tt : store_state (client cfg)) environ tr.

(** The world before anything has happened. *)
Definition world0 (cfg : config) (environ : gmap string string)
    : world (client cfg) :=
  after cfg environ [].

(** Sample arguments. *)
Definition set_age : value := VDict {[ "$set" := VDict {[ "age" := VInt 3 ]} ]}.
Definition name_rex : value := VDict {[ "name" := VStr "Rex" ]}.

Definition baseline_self (cfg : config) : Baseline.AnimalShelter (client cfg) :=
  {| Baseline._client := (tt : handle (client cfg));
     Baseline.database := "aac";
     Baseline.collection := Collection (tt : handle (client cfg)) "aac" "animals" |}.

Definition enhanced_self (cfg : config) : Enhanced.AnimalShelter (client cfg) :=
  {| Enhanced._client := Some (tt : handle (client cfg));
     Enhanced._db_name := "aac";
     Enhanced._col_name := "animals" |}.

End Mock.


(** ** Vocabulary of the specification *)

(** A non-empty mapping. *)
Definition is_nonempty_dict (v : value) : bool :=
  match v with
  | VDict d => negb (dict_is_empty d)
  | _ => false
  end.

(** The events an operation adds to the trace when run from [w]. *)
Definition events_of {cl A} (m : M cl A) (w : world cl) : list event :=
  drop (length (w_trace w)) (w_trace (snd (m w))).

(** The operation fails with an invalid-argument error before anything is
    done: it raises [ValueError] and leaves the world as it found it, so no
    request reached the store client and nothing was printed or logged. *)
Definition rejected {cl A} (m : M cl A) (w : world cl) : Prop :=
  exists msg, m w = (Raise (Exn ValueError msg), w).

(** The operation fails on the guard of the [collection] property, before
    anything is done. *)
Definition not_initialized {cl A} (m : M cl A) (w : world cl) : Prop :=
  m w = (Raise (Exn RuntimeError "MongoDB client is not initialized"), w).

(** The credential a construction resolves to, in the words of the
    specification: the environment variable when it is set and non-empty,
    the constructor argument otherwise. *)
Definition resolve_credential (environ : gmap string string) (name : string)
    (arg : value) : value :=
  match environ !! name with
  | Some s => if String.eqb s "" then arg else VStr s
  | None => arg
  end.

(** The request an [update] forwards to the store client. *)
Definition update_request (query update_doc : value) (many upsert : bool)
    : call :=
  if many then CUpdateMany query update_doc upsert
  else CUpdateOne query update_doc upsert.

(** The request a [delete] forwards to the store client. *)
Definition delete_request (query : value) (many : bool) : call :=
  if many then CDeleteMany query else CDeleteOne query.

(** The requests of a trace, oldest first, without their outcomes. *)
Definition requests (tr : list event) : list call :=
  omap (fun ev => match ev with Call c _ => Some c | _ => None end) tr.

(** The requests a [read] that nothing interrupts sends, in order: the
    find, the sort when a non-empty sort is given, the limit when the limit
    is a positive [int], and the iteration. *)
Definition read_plan (query : value) (projection : option (gmap string Z))
    (limit : value) (sort : option (list (string * Z))) : list call :=
  [CFind (match query with VNone => VDict ∅ | _ => query end) projection]
  ++ match sort with
     | Some ((_ :: _) as spec) => [CSort spec]
     | _ => []
     end
  ++ (if isinstance_int limit && (0 <? int_value limit)
      then [CLimit limit] else [])
  ++ [CIterate].

(** The count an operation reports for a store count [c]: [c], or zero when
    the store reported none. *)
Definition coerced (c : option Z) : Z := default 0 c.


Import Mock.

(** * Properties *)

(** ** Basic facts about values and the monad *)

Lemma dict_is_empty_spec {V} (d : gmap string V) :
  dict_is_empty d = true <-> d = ∅.
Proof.
  unfold dict_is_empty. rewrite Nat.eqb_eq. apply map_size_empty_iff.
Qed.

Lemma is_nonempty_dict_true v :
  is_nonempty_dict v = true ->
  isinstance_dict v = true /\ truthy v = true.
Proof. destruct v; simpl; try discriminate. auto. Qed.

Lemma is_nonempty_dict_false v :
  is_nonempty_dict v = false ->
  negb (isinstance_dict v) || negb (truthy v) = true.
Proof.
  destruct v; simpl; auto. intros ->. reflexivity.
Qed.

Lemma py_or_coerced c : py_or c 0 = coerced c.
Proof.
  destruct c as [n|]; simpl; [|reflexivity].
  destruct (Z.eqb_spec n 0); congruence.
Qed.

Lemma events_of_app {cl A} (m : M cl A) (w : world cl) evs :
  w_trace (snd (m w)) = w_trace w ++ evs -> events_of m w = evs.
Proof.
  unfold events_of. intros ->. apply drop_app_length.
Qed.

Lemma rejected_no_events {cl A} (m : M cl A) (w : world cl) :
  rejected m w -> events_of m w = [].
Proof.
  intros [msg Hm]. apply events_of_app. rewrite Hm. simpl.
  symmetry. apply app_nil_r.
Qed.

Lemma bind_Ok {cl A B} (m : M cl A) (k : A -> M cl B) w b w' :
  (x <- m ;; k x) w = (Ok b, w') ->
  exists a w1, m w = (Ok a, w1) /\ k a w1 = (Ok b, w').
Proof.
  unfold bind. destruct (m w) as [[a|e] w1]; [|discriminate].
  intros Hk. exists a, w1. auto.
Qed.

Lemma try_except_Ok {cl A} (m : M cl A) catches (h : exn -> M cl A) w a w' :
  try_except m catches h w = (Ok a, w') ->
  m w = (Ok a, w') \/
  exists e w1, m w = (Raise e, w1) /\ catches e = true /\
               h e w1 = (Ok a, w').
Proof.
  unfold try_except. destruct (m w) as [[a0|e] w1].
  - intros [= -> ->]. left. reflexivity.
  - destruct (catches e) eqn:Hc; [|discriminate].
    intros Hh. right. exists e, w1. auto.
Qed.

(** Unfold the monad down to the store client's answers. *)
Ltac unfold_monad :=
  unfold bind, try_except, call_store, print, logger_info, logger_error,
    emit, py_int, raise, ret, getenv in *.

(** Case analysis on the answer of the next request to the store client. *)
Ltac store_answer :=
  match goal with
  | |- context [?op ?s] =>
      lazymatch type of (op s) with
      | (outcome _ * store_state _)%type =>
          let Hcall := fresh "Hcall" in
          destruct (op s) as [[?|?] ?] eqn:Hcall
      end
  end.

(** Case analysis on whether the [except] clause catches. *)
Ltac caught_case :=
  match goal with
  | |- context [if is_PyMongoError ?e then _ else _] =>
      destruct (is_PyMongoError e) eqn:?
  end.

(** Bring nested trace extensions into the shape [tr ++ evs]. *)
Ltac trace_shape :=
  simpl; rewrite <- ?app_assoc; rewrite ?drop_app_length; simpl.

(** ** update: argument validation (C1) *)

(** C1, as claimed, fails on the baseline variant: an empty query with a
    well-formed update specification is not rejected.  The request is
    forwarded to the store client, and the call returns the count the store
    reports. *)
Lemma baseline_update_accepts_empty_query :
  is_nonempty_dict (VDict ∅) = false /\
  Baseline.update (baseline_self up) (VDict ∅) set_age false false
    (world0 up ∅)
  = (Ok 1, after up ∅ [Call (CUpdateOne (VDict ∅) set_age false) Returned]) /\
  ~ rejected
      (Baseline.update (baseline_self up) (VDict ∅) set_age false false)
      (world0 up ∅).
Proof.
  split; [reflexivity|].
  assert (Hrun :
    Baseline.update (baseline_self up) (VDict ∅) set_age false false
      (world0 up ∅)
    = (Ok 1, after up ∅ [Call (CUpdateOne (VDict ∅) set_age false) Returned])).
  { vm_compute. reflexivity. }
  split; [exact Hrun|].
  intros [msg Hmsg]. rewrite Hrun in Hmsg. discriminate Hmsg.
Qed.

(** C1, amended.  The enhanced variant rejects an empty or non-mapping query
    or update specification with [ValueError] before any store operation.
    The baseline variant rejects a query or update specification that is not
    a mapping in the same way; two mappings, empty or not, pass its guard and
    the request is forwarded to the store client. *)
Theorem update_argument_guard (cl : Client) :
  (forall (self : Enhanced.AnimalShelter cl) query update_doc many upsert w,
     is_nonempty_dict query = false \/ is_nonempty_dict update_doc = false ->
     rejected (Enhanced.update self query update_doc many upsert) w) /\
  (forall (self : Baseline.AnimalShelter cl) query update_doc many upsert w,
     isinstance_dict query = false \/ isinstance_dict update_doc = false ->
     rejected (Baseline.update self query update_doc many upsert) w) /\
  (forall (self : Baseline.AnimalShelter cl) query update_doc many upsert w,
     isinstance_dict query = true -> isinstance_dict update_doc = true ->
     exists r evs,
       events_of (Baseline.update self query update_doc many upsert) w
       = Call (update_request query update_doc many upsert) r :: evs).
Proof.
  split; [|split].
  - intros self query update_doc many upsert w Hbad.
    unfold rejected, Enhanced.update.
    destruct (negb (isinstance_dict query) || negb (truthy query)) eqn:Hq.
    + eexists. reflexivity.
    + destruct Hbad as [Hbad|Hbad].
      * apply is_nonempty_dict_false in Hbad. congruence.
      * apply is_nonempty_dict_false in Hbad. rewrite Hbad.
        eexists. reflexivity.
  - intros self query update_doc many upsert w Hbad.
    unfold rejected, Baseline.update.
    destruct Hbad as [-> | ->]; simpl; rewrite ?orb_true_r;
      eexists; reflexivity.
  - intros self query update_doc many upsert w Hq Hu.
    unfold Baseline.update, update_request. rewrite Hq, Hu. simpl.
    unfold events_of. unfold_monad.
    destruct many; store_answer; simpl.
    all: try (destruct (modified_count _); simpl).
    all: try (destruct (is_PyMongoError _); simpl).
    all: eexists _, _; trace_shape; reflexivity.
Qed.

(** The scenario of the specification, on the enhanced variant:
    [update({"name": "Rex"}, {}, many=False)]. *)
Lemma update_argument_guard_scenario :
  rejected
    (Enhanced.update (enhanced_self up) name_rex (VDict ∅) false false)
    (world0 up ∅).
Proof.
  apply (proj1 (update_argument_guard (client up))).
  right. reflexivity.
Defined.

(** ** read: the identity field is stripped (C2) *)

Lemma _clean_results_loop_map cleaned docs :
  Enhanced._clean_results_loop cleaned docs
  = cleaned ++ map (delete "_id") docs.
Proof.
  revert cleaned. induction docs as [|doc docs IH]; intros cleaned; simpl.
  - symmetry. apply app_nil_r.
  - rewrite IH, <- app_assoc. reflexivity.
Qed.

Lemma _clean_results_map docs :
  Enhanced._clean_results docs = map (delete "_id") docs.
Proof. apply _clean_results_loop_map. Qed.

Lemma _clean_results_no_id docs :
  Forall (fun d : doc => d !! "_id" = None) (Enhanced._clean_results docs).
Proof.
  rewrite _clean_results_map. apply Forall_forall. intros d Hd.
  apply list_elem_of_In, in_map_iff in Hd as (d0 & <- & _).
  apply lookup_delete_eq.
Qed.

(** C2.  Whatever the query, projection, limit and sort, and whatever the
    store answers, no document of the sequence a successful [read] of the
    enhanced variant returns has an ["_id"] field. *)
Theorem read_strips_identity (cl : Client) (self : Enhanced.AnimalShelter cl)
    (query : value) (projection : option (gmap string Z)) (limit : value)
    (sort : option (list (string * Z))) (w w' : world cl) (docs : list doc) :
  Enhanced.read self query projection limit sort w = (Ok docs, w') ->
  Forall (fun d : doc => d !! "_id" = None) docs.
Proof.
  unfold Enhanced.read. intros Hread.
  destruct (negb (isinstance_dict _)); [discriminate Hread|].
  apply try_except_Ok in Hread as [Hbody | (e & w1 & _ & _ & Hhandler)].
  - apply bind_Ok in Hbody as (coll & w1 & _ & Hbody).
    apply bind_Ok in Hbody as (cur1 & w2 & _ & Hbody).
    apply bind_Ok in Hbody as (cur2 & w3 & _ & Hbody).
    apply bind_Ok in Hbody as (cur3 & w4 & _ & Hbody).
    apply bind_Ok in Hbody as (raw_results & w5 & _ & Hbody).
    apply bind_Ok in Hbody as (u & w6 & _ & Hret).
    injection Hret as <- _. apply _clean_results_no_id.
  - apply bind_Ok in Hhandler as (u & w2 & _ & Hraise). discriminate Hraise.
Qed.

Lemma read_strips_identity_witness :
  Enhanced.read (enhanced_self up) VNone None (VInt 0) None (world0 up ∅)
  = (Ok [delete "_id" rex; delete "_id" luna],
     after up ∅
       [Call (CFind (VDict ∅) None) Returned;
        Call CIterate Returned;
        Log INFO "Read %d document(s) from collection" [LInt 2]]) /\
  Forall (fun d : doc => d !! "_id" = None)
    [delete "_id" rex; delete "_id" luna].
Proof.
  assert (Hrun :
    Enhanced.read (enhanced_self up) VNone None (VInt 0) None (world0 up ∅)
    = (Ok [delete "_id" rex; delete "_id" luna],
       after up ∅
         [Call (CFind (VDict ∅) None) Returned;
          Call CIterate Returned;
          Log INFO "Read %d document(s) from collection" [LInt 2]])).
  { vm_compute. reflexivity. }
  split; [exact Hrun|].
  exact (read_strips_identity _ _ _ _ _ _ _ _ _ Hrun).
Defined.

(** ** Baseline: store failures are swallowed (C3) *)

(** Split a membership in an explicit trace into its cases. *)
Ltac trace_cases H :=
  repeat (apply elem_of_cons in H as [H|H];
          [try discriminate H; try (injection H as ? ?; subst)|]);
  try (apply elem_of_nil in H; contradiction).

Ltac fail_soft_leaf H :=
  trace_cases H; try congruence; split; reflexivity.

(** C3.  A store-level failure is an exception deriving from
    [PyMongoError].  In the baseline variant, when a request that [create],
    [read] or [update] sends to the store client raises such an exception
    [e], the operation returns [False], the empty list or [0], and the last
    thing it does is to print the diagnostic line for [e].  Arguments its
    guards reject raise [ValueError] to the caller before anything is
    done. *)
Theorem baseline_fail_soft (cl : Client) (self : Baseline.AnimalShelter cl) :
  (forall data w e,
     is_PyMongoError e = true ->
     store_raised e (events_of (Baseline.create self data) w) ->
     fst (Baseline.create self data w) = Ok false /\
     last (events_of (Baseline.create self data) w)
     = Some (Print ("[ERROR] Create failed: " +:+ exn_msg e))) /\
  (forall query projection limit sort w e,
     is_PyMongoError e = true ->
     store_raised e
       (events_of (Baseline.read self query projection limit sort) w) ->
     fst (Baseline.read self query projection limit sort w) = Ok [] /\
     last (events_of (Baseline.read self query projection limit sort) w)
     = Some (Print ("[ERROR] Read failed: " +:+ exn_msg e))) /\
  (forall query update_doc many upsert w e,
     is_PyMongoError e = true ->
     store_raised e
       (events_of (Baseline.update self query update_doc many upsert) w) ->
     fst (Baseline.update self query update_doc many upsert w) = Ok 0 /\
     last (events_of (Baseline.update self query update_doc many upsert) w)
     = Some (Print ("[ERROR] Update failed: " +:+ exn_msg e))) /\
  (forall data w,
     is_nonempty_dict data = false ->
     rejected (Baseline.create self data) w) /\
  (forall query projection limit sort w,
     query <> VNone -> isinstance_dict query = false ->
     rejected (Baseline.read self query projection limit sort) w) /\
  (forall query update_doc many upsert w,
     isinstance_dict query = false \/ isinstance_dict update_doc = false ->
     rejected (Baseline.update self query update_doc many upsert) w).
Proof.
  refine (conj _ (conj _ (conj _ (conj _ (conj _ _))))).
  - intros data w e He. unfold store_raised, events_of, Baseline.create.
    destruct (negb (isinstance_dict data) || negb (truthy data));
      unfold_monad; [|store_answer; simpl; try caught_case];
      trace_shape; rewrite ?drop_all; intros [c Hin]; fail_soft_leaf Hin.
  - intros query projection limit sort w e He.
    unfold store_raised, events_of, Baseline.read.
    destruct (negb (isinstance_dict _)); unfold_monad.
    { simpl. rewrite drop_all. intros [c Hin]. fail_soft_leaf Hin. }
    destruct sort as [[|key spec]|];
      destruct (isinstance_int limit && (0 <? int_value limit));
      repeat (store_answer; simpl); try caught_case;
      trace_shape; intros [c Hin]; fail_soft_leaf Hin.
  - intros query update_doc many upsert w e He.
    unfold store_raised, events_of, Baseline.update.
    destruct (negb (isinstance_dict _) || negb (isinstance_dict _));
      unfold_monad.
    { simpl. rewrite drop_all. intros [c Hin]. fail_soft_leaf Hin. }
    destruct many; store_answer; simpl;
      try destruct (modified_count _); try caught_case;
      trace_shape; intros [c Hin]; fail_soft_leaf Hin.
  - intros data w Hbad. apply is_nonempty_dict_false in Hbad.
    unfold rejected, Baseline.create. rewrite Hbad. eexists. reflexivity.
  - intros query projection limit sort w Hsome Hbad.
    unfold rejected, Baseline.read.
    destruct query; try congruence; try discriminate Hbad;
      eexists; reflexivity.
  - intros query update_doc many upsert w Hbad.
    unfold rejected, Baseline.update.
    destruct Hbad as [-> | ->]; simpl; rewrite ?orb_true_r;
      eexists; reflexivity.
Qed.

Lemma baseline_fail_soft_witness :
  (fst (Baseline.create (baseline_self down) name_rex (world0 down ∅))
   = Ok false /\
   last (events_of (Baseline.create (baseline_self down) name_rex)
           (world0 down ∅))
   = Some (Print "[ERROR] Create failed: localhost:27017: timed out")) /\
  (fst (Baseline.read (baseline_self down) VNone None (VInt 0) None
          (world0 down ∅))
   = Ok [] /\
   last (events_of (Baseline.read (baseline_self down) VNone None (VInt 0) None)
           (world0 down ∅))
   = Some (Print "[ERROR] Read failed: localhost:27017: timed out")) /\
  (fst (Baseline.update (baseline_self down) name_rex set_age false false
          (world0 down ∅))
   = Ok 0 /\
   last (events_of
           (Baseline.update (baseline_self down) name_rex set_age false false)
           (world0 down ∅))
   = Some (Print "[ERROR] Update failed: localhost:27017: timed out")) /\
  rejected (Baseline.create (baseline_self down) (VDict ∅)) (world0 down ∅) /\
  rejected (Baseline.read (baseline_self down) (VStr "Rex") None (VInt 0) None)
    (world0 down ∅) /\
  rejected (Baseline.update (baseline_self down) name_rex VNone false false)
    (world0 down ∅).
Proof.
  destruct (baseline_fail_soft (client down) (baseline_self down))
    as (Hcreate & Hread & Hupdate & Hcreate_bad & Hread_bad & Hupdate_bad).
  refine (conj _ (conj _ (conj _ (conj _ (conj _ _))))).
  - apply (Hcreate name_rex (world0 down ∅) timeout); [reflexivity|].
    exists (CInsertOne name_rex). vm_compute. repeat constructor.
  - apply (Hread VNone None (VInt 0) None (world0 down ∅) timeout);
      [reflexivity|].
    exists CIterate. vm_compute. repeat constructor.
  - apply (Hupdate name_rex set_age false false (world0 down ∅) timeout);
      [reflexivity|].
    exists (CUpdateOne name_rex set_age false). vm_compute.
    repeat constructor.
  - apply Hcreate_bad. reflexivity.
  - apply Hread_bad; [discriminate|reflexivity].
  - apply Hupdate_bad. right. reflexivity.
Defined.

(** ** Construction: credentials (C4, C5) *)

(** The override in [Enhanced.__init__] computes the credential the
    specification describes. *)
Lemma override_resolves (environ : gmap string string) name arg :
  (let env := match environ !! name with
              | Some s => VStr s
              | None => VNone
              end in
   if truthy env then env else arg)
  = resolve_credential environ name arg.
Proof.
  unfold resolve_credential. destruct (environ !! name) as [s|]; simpl.
  - destruct (String.eqb s ""); reflexivity.
  - reflexivity.
Qed.

(** C4.  A construction whose user or password resolves to an empty value
    fails with [ValueError] before anything is done: no client is built and
    no request is sent.  In the baseline variant the constructor arguments
    are the credentials; in the enhanced variant the environment is
    consulted first. *)
Theorem construction_requires_credentials (cl : Client) :
  (forall user password host port db col auth_source auth_mechanism
          server_selection_timeout_ms (w : world cl),
     truthy user = false \/ truthy password = false ->
     rejected
       (Baseline.__init__ user password host port db col auth_source
          auth_mechanism server_selection_timeout_ms) w) /\
  (forall user password host port db col authSource (w : world cl),
     truthy (resolve_credential (w_environ w) "AAC_DB_USER" user) = false \/
     truthy (resolve_credential (w_environ w) "AAC_DB_PASS" password) = false ->
     rejected (Enhanced.__init__ user password host port db col authSource) w).
Proof.
  split.
  - intros user password host port db col auth_source auth_mechanism
      server_selection_timeout_ms w Hempty.
    unfold rejected, Baseline.__init__.
    destruct Hempty as [-> | ->]; simpl; rewrite ?orb_true_r;
      eexists; reflexivity.
  - intros user password host port db col authSource w Hempty.
    unfold rejected, Enhanced.__init__. unfold bind at 1 2. unfold getenv.
    rewrite <- !override_resolves in Hempty. cbv zeta in Hempty.
    destruct Hempty as [-> | ->]; simpl; rewrite ?orb_true_r;
      eexists; reflexivity.
Qed.

(** The scenario of the specification, [user="u", password=""], on both
    variants. *)
Lemma construction_requires_credentials_witness :
  rejected
    (Baseline.__init__ (VStr "u") (VStr "") "localhost" 27017 "aac" "animals"
       "admin" "SCRAM-SHA-256" 5000) (world0 up ∅) /\
  rejected
    (Enhanced.__init__ (VStr "u") (VStr "") "localhost" 27017 "aac" "animals"
       "admin") (world0 up ∅).
Proof.
  split.
  - apply (proj1 (construction_requires_credentials (client up))).
    right. reflexivity.
  - apply (proj2 (construction_requires_credentials (client up))).
    right. reflexivity.
Defined.

(** The client a construction of the enhanced variant builds gets the
    resolved credentials. *)
Lemma init_connects_with_resolved (cl : Client) user password host port db col
    authSource (w : world cl) p r :
  Call (CMongoClient p) r
    ∈ events_of (Enhanced.__init__ user password host port db col authSource) w ->
  cp_username p = resolve_credential (w_environ w) "AAC_DB_USER" user /\
  cp_password p = resolve_credential (w_environ w) "AAC_DB_PASS" password.
Proof.
  rewrite <- !override_resolves. cbv zeta.
  unfold events_of, Enhanced.__init__. unfold bind at 1 2. unfold getenv.
  destruct (negb (truthy _) || negb (truthy _)).
  - unfold_monad. simpl. rewrite drop_all. intros Hin. trace_cases Hin.
  - unfold_monad. simpl.
    repeat (store_answer; simpl); try caught_case;
      trace_shape; intros Hin; trace_cases Hin; split; reflexivity.
Qed.

(** C5.  A construction of the enhanced variant whose resolved user and
    password are non-empty builds its client as the first thing it asks of
    the store client, with exactly these credentials; and whatever client a
    construction builds, its arguments [p] obey the precedence: a
    credential variable that is set and non-empty is what [p] carries,
    whatever the constructor argument; when the variable is unset or empty,
    [p] carries the constructor argument. *)
Theorem environment_overrides_credentials (cl : Client) user password host
    port db col authSource (w : world cl) :
  (truthy (resolve_credential (w_environ w) "AAC_DB_USER" user) = true ->
   truthy (resolve_credential (w_environ w) "AAC_DB_PASS" password) = true ->
   exists r evs,
     events_of (Enhanced.__init__ user password host port db col authSource) w
     = Log INFO "Connecting to MongoDB at %s:%s" [LStr host; LInt port]
       :: Call
            (CMongoClient
               {| cp_host := host;
                  cp_port := port;
                  cp_username :=
                    resolve_credential (w_environ w) "AAC_DB_USER" user;
                  cp_password :=
                    resolve_credential (w_environ w) "AAC_DB_PASS" password;
                  cp_authSource := authSource;
                  cp_authMechanism := None;
                  cp_directConnection := None;
                  cp_serverSelectionTimeoutMS := 5000 |}) r
       :: evs) /\
  (forall p r,
     Call (CMongoClient p) r
       ∈ events_of
           (Enhanced.__init__ user password host port db col authSource) w ->
     (forall s, w_environ w !! "AAC_DB_USER" = Some s -> s <> "" ->
                cp_username p = VStr s) /\
     (w_environ w !! "AAC_DB_USER" = None \/
      w_environ w !! "AAC_DB_USER" = Some "" ->
      cp_username p = user) /\
     (forall s, w_environ w !! "AAC_DB_PASS" = Some s -> s <> "" ->
                cp_password p = VStr s) /\
     (w_environ w !! "AAC_DB_PASS" = None \/
      w_environ w !! "AAC_DB_PASS" = Some "" ->
      cp_password p = password)).
Proof.
  split.
  - rewrite <- !override_resolves. cbv zeta. intros Huser Hpass.
    unfold events_of, Enhanced.__init__. unfold_monad. simpl.
    rewrite Huser, Hpass. simpl.
    repeat (store_answer; simpl); try caught_case;
      trace_shape; eexists _, _; reflexivity.
  - intros p r Hin. apply init_connects_with_resolved in Hin as [-> ->].
    unfold resolve_credential.
    refine (conj _ (conj _ (conj _ _))).
    + intros s -> Hs. apply String.eqb_neq in Hs. rewrite Hs. reflexivity.
    + intros [-> | ->]; reflexivity.
    + intros s -> Hs. apply String.eqb_neq in Hs. rewrite Hs. reflexivity.
    + intros [-> | ->]; reflexivity.
Qed.

(** The scenarios of the precedence, with constructor arguments ["u"] and
    ["p"]: both variables set, so both arguments are ignored; the user
    variable empty and the password variable unset, so both arguments are
    used; only the password variable set, so the user is the argument and
    the password the variable. *)
Lemma environment_overrides_credentials_witness :
  let connects (environ : gmap string string) (u p : value) :=
    exists r evs,
      events_of
        (Enhanced.__init__ (VStr "u") (VStr "p") "localhost" 27017 "aac"
           "animals" "admin") (world0 up environ)
      = Log INFO "Connecting to MongoDB at %s:%s"
          [LStr "localhost"; LInt 27017]
        :: Call
             (CMongoClient
                {| cp_host := "localhost"; cp_port := 27017;
                   cp_username := u; cp_password := p;
                   cp_authSource := "admin"; cp_authMechanism := None;
                   cp_directConnection := None;
                   cp_serverSelectionTimeoutMS := 5000 |}) r
        :: evs in
  connects {[ "AAC_DB_USER" := "envuser"; "AAC_DB_PASS" := "envpass" ]}
    (VStr "envuser") (VStr "envpass") /\
  connects {[ "AAC_DB_USER" := "" ]} (VStr "u") (VStr "p") /\
  connects {[ "AAC_DB_PASS" := "envpass" ]} (VStr "u") (VStr "envpass") /\
  (forall p r,
     Call (CMongoClient p) r
       ∈ events_of
           (Enhanced.__init__ (VStr "u") (VStr "p") "localhost" 27017 "aac"
              "animals" "admin")
           (world0 up {[ "AAC_DB_USER" := ""; "AAC_DB_PASS" := "envpass" ]}) ->
     cp_username p = VStr "u" /\ cp_password p = VStr "envpass").
Proof.
  intros connects. unfold connects.
  refine (conj _ (conj _ (conj _ _))).
  - destruct (proj1 (environment_overrides_credentials (client up) (VStr "u")
                       (VStr "p") "localhost" 27017 "aac" "animals" "admin"
                       (world0 up
                          {[ "AAC_DB_USER" := "envuser";
                             "AAC_DB_PASS" := "envpass" ]}))
             ) as (r & evs & Hevents);
      [vm_compute; reflexivity|vm_compute; reflexivity|].
    exists r, evs. vm_compute in Hevents |- *. exact Hevents.
  - destruct (proj1 (environment_overrides_credentials (client up) (VStr "u")
                       (VStr "p") "localhost" 27017 "aac" "animals" "admin"
                       (world0 up {[ "AAC_DB_USER" := "" ]}))
             ) as (r & evs & Hevents);
      [vm_compute; reflexivity|vm_compute; reflexivity|].
    exists r, evs. vm_compute in Hevents |- *. exact Hevents.
  - destruct (proj1 (environment_overrides_credentials (client up) (VStr "u")
                       (VStr "p") "localhost" 27017 "aac" "animals" "admin"
                       (world0 up {[ "AAC_DB_PASS" := "envpass" ]}))
             ) as (r & evs & Hevents);
      [vm_compute; reflexivity|vm_compute; reflexivity|].
    exists r, evs. vm_compute in Hevents |- *. exact Hevents.
  - intros p r Hin.
    destruct (proj2 (environment_overrides_credentials (client up) (VStr "u")
                       (VStr "p") "localhost" 27017 "aac" "animals" "admin"
                       (world0 up
                          {[ "AAC_DB_USER" := ""; "AAC_DB_PASS" := "envpass" ]}))
                p r Hin) as (_ & Huser & Hpass & _).
    split.
    + apply Huser. right. vm_compute. reflexivity.
    + apply (Hpass "envpass"); [vm_compute; reflexivity|discriminate].
Defined.

(** ** delete: the empty query (C6) *)

(** C6, as claimed, fails on the enhanced variant: its [delete] rejects the
    empty query mapping. *)
Lemma enhanced_delete_rejects_empty_query :
  Enhanced.delete (enhanced_self up) (VDict ∅) true (world0 up ∅)
  = (Raise (Exn ValueError "delete() expects a non-empty query dict"),
     world0 up ∅) /\
  rejected (Enhanced.delete (enhanced_self up) (VDict ∅) true) (world0 up ∅).
Proof.
  assert (Hrun :
    Enhanced.delete (enhanced_self up) (VDict ∅) true (world0 up ∅)
    = (Raise (Exn ValueError "delete() expects a non-empty query dict"),
       world0 up ∅)).
  { reflexivity. }
  split; [exact Hrun|]. eexists. exact Hrun.
Qed.

(** C6, amended.  The baseline variant's [delete] does not reject the empty
    query mapping: it forwards it to the store client as the first thing it
    does.  The enhanced variant's [delete] rejects the empty query mapping
    with [ValueError] before any store operation. *)
Theorem delete_empty_query (cl : Client) :
  (forall (self : Baseline.AnimalShelter cl) many w,
     ~ rejected (Baseline.delete self (VDict ∅) many) w /\
     exists r evs,
       events_of (Baseline.delete self (VDict ∅) many) w
       = Call (delete_request (VDict ∅) many) r :: evs) /\
  (forall (self : Enhanced.AnimalShelter cl) many w,
     rejected (Enhanced.delete self (VDict ∅) many) w).
Proof.
  split.
  - intros self many w.
    assert (Hforward : exists r evs,
      events_of (Baseline.delete self (VDict ∅) many) w
      = Call (delete_request (VDict ∅) many) r :: evs).
    { unfold events_of, Baseline.delete, delete_request. simpl. unfold_monad.
      destruct many; store_answer; simpl;
        try destruct (deleted_count _); try caught_case;
        eexists _, _; trace_shape; reflexivity. }
    split; [|exact Hforward].
    intros Hrej. apply rejected_no_events in Hrej.
    destruct Hforward as (r & evs & Hevs). congruence.
  - intros self many w. eexists. reflexivity.
Qed.

(** ** close (C7, C8) *)

(** A [close] of the enhanced variant that returns leaves no client, and
    changes nothing else of the instance. *)
Lemma close_returns_closed (cl : Client) (self self1 : Enhanced.AnimalShelter cl)
    (w w1 : world cl) :
  Enhanced.close self w = (Ok self1, w1) ->
  Enhanced._client self1 = None /\
  Enhanced._db_name self1 = Enhanced._db_name self /\
  Enhanced._col_name self1 = Enhanced._col_name self.
Proof.
  unfold Enhanced.close.
  destruct (Enhanced._client self) as [client|] eqn:Hclient.
  - intros Hclose.
    apply bind_Ok in Hclose as (u1 & w2 & _ & Hclose).
    apply bind_Ok in Hclose as (u2 & w3 & _ & Hret).
    injection Hret as <- _. simpl. auto.
  - intros [= <- _]. auto.
Qed.

(** C7, as claimed, fails on the baseline variant: its [close] has no
    record of having released the client, and a second call asks the client
    to close again. *)
Lemma baseline_close_twice_releases_twice :
  Baseline.close (baseline_self up) (world0 up ∅)
  = (Ok tt, after up ∅ [Call CClose Returned]) /\
  Baseline.close (baseline_self up) (after up ∅ [Call CClose Returned])
  = (Ok tt, after up ∅ [Call CClose Returned; Call CClose Returned]) /\
  store_calls
    (events_of (Baseline.close (baseline_self up))
       (after up ∅ [Call CClose Returned]))
  = [Call CClose Returned].
Proof. repeat split. Qed.

(** C7, amended.  In the enhanced variant, a [close] that returns has
    released the client if there was one (one request to close it, none
    otherwise), and every [close] after it is a no-op: it returns without
    error, sends nothing to the store client and changes nothing.  In the
    baseline variant [close] never raises, and every call, the second
    included, asks the client to close. *)
Theorem close_twice (cl : Client) :
  (forall (self self1 : Enhanced.AnimalShelter cl) (w w1 : world cl),
     Enhanced.close self w = (Ok self1, w1) ->
     store_calls (events_of (Enhanced.close self) w)
     = match Enhanced._client self with
       | Some _ => [Call CClose Returned]
       | None => []
       end /\
     forall w2, Enhanced.close self1 w2 = (Ok self1, w2)) /\
  (forall (self : Baseline.AnimalShelter cl) (w : world cl),
     exists r w1,
       Baseline.close self w = (Ok tt, w1) /\
       events_of (Baseline.close self) w = [Call CClose r]).
Proof.
  split.
  - intros self self1 w w1 Hclose. split.
    + revert Hclose. unfold events_of, Enhanced.close.
      destruct (Enhanced._client self) as [client|].
      * unfold_monad. simpl. store_answer; simpl; [|discriminate].
        intros _. trace_shape. reflexivity.
      * intros _. unfold_monad. simpl. rewrite drop_all. reflexivity.
    + intros w2. apply close_returns_closed in Hclose as (Hnone & _ & _).
      unfold Enhanced.close. rewrite Hnone. reflexivity.
  - intros self w. unfold events_of, Baseline.close. unfold_monad.
    store_answer; simpl; try destruct a;
      eexists _, _; trace_shape; split; reflexivity.
Qed.

Lemma close_twice_witness :
  let closed : Enhanced.AnimalShelter (client up) :=
    {| Enhanced._client := None;
       Enhanced._db_name := "aac";
       Enhanced._col_name := "animals" |} in
  let w1 :=
    after up ∅
      [Log INFO "Closing MongoDB client connection" [];
       Call CClose Returned] in
  Enhanced.close (enhanced_self up) (world0 up ∅) = (Ok closed, w1) /\
  store_calls (events_of (Enhanced.close (enhanced_self up)) (world0 up ∅))
  = [Call CClose Returned] /\
  Enhanced.close closed w1 = (Ok closed, w1).
Proof.
  intros closed w1.
  assert (Hclose :
    Enhanced.close (enhanced_self up) (world0 up ∅) = (Ok closed, w1)).
  { reflexivity. }
  destruct (proj1 (close_twice (client up)) _ _ _ _ Hclose) as [Hfirst Hnext].
  split; [exact Hclose|]. split; [exact Hfirst|]. apply Hnext.
Defined.

(** C8.  In the enhanced variant, once [close] has returned, [create],
    [read], [update] and [delete] with arguments that pass their guards fail
    on the guard of the [collection] property with the "not initialized"
    [RuntimeError], before anything is done: nothing reaches the store
    client and nothing is logged. *)
Theorem closed_instance_not_initialized (cl : Client)
    (self self1 : Enhanced.AnimalShelter cl) (w w1 : world cl) :
  Enhanced.close self w = (Ok self1, w1) ->
  (forall data w2,
     is_nonempty_dict data = true ->
     not_initialized (Enhanced.create self1 data) w2) /\
  (forall query projection limit sort w2,
     query = VNone \/ isinstance_dict query = true ->
     not_initialized (Enhanced.read self1 query projection limit sort) w2) /\
  (forall query update_doc many upsert w2,
     is_nonempty_dict query = true -> is_nonempty_dict update_doc = true ->
     not_initialized (Enhanced.update self1 query update_doc many upsert) w2) /\
  (forall query many w2,
     is_nonempty_dict query = true ->
     not_initialized (Enhanced.delete self1 query many) w2).
Proof.
  intros Hclose. apply close_returns_closed in Hclose as (Hnone & _ & _).
  refine (conj _ (conj _ (conj _ _))).
  - intros data w2 Hdata. apply is_nonempty_dict_true in Hdata as [Hd Ht].
    unfold not_initialized, Enhanced.create, Enhanced.collection.
    rewrite Hd, Ht, Hnone. reflexivity.
  - intros query projection limit sort w2 Hquery.
    unfold not_initialized, Enhanced.read, Enhanced.collection.
    rewrite Hnone.
    destruct Hquery as [-> | Hq]; [reflexivity|].
    destruct query; try discriminate Hq. reflexivity.
  - intros query update_doc many upsert w2 Hquery Hupdate.
    apply is_nonempty_dict_true in Hquery as [Hq Hqt].
    apply is_nonempty_dict_true in Hupdate as [Hu Hut].
    unfold not_initialized, Enhanced.update, Enhanced.collection.
    rewrite Hq, Hqt, Hu, Hut, Hnone. reflexivity.
  - intros query many w2 Hquery.
    apply is_nonempty_dict_true in Hquery as [Hq Hqt].
    unfold not_initialized, Enhanced.delete, Enhanced.collection.
    rewrite Hq, Hqt, Hnone. reflexivity.
Qed.

Lemma closed_instance_not_initialized_witness :
  let closed : Enhanced.AnimalShelter (client up) :=
    {| Enhanced._client := None;
       Enhanced._db_name := "aac";
       Enhanced._col_name := "animals" |} in
  let w1 :=
    after up ∅
      [Log INFO "Closing MongoDB client connection" [];
       Call CClose Returned] in
  Enhanced.close (enhanced_self up) (world0 up ∅) = (Ok closed, w1) /\
  not_initialized (Enhanced.create closed name_rex) w1 /\
  not_initialized (Enhanced.read closed VNone None (VInt 0) None) w1 /\
  not_initialized (Enhanced.update closed name_rex set_age false false) w1 /\
  not_initialized (Enhanced.delete closed name_rex false) w1.
Proof.
  intros closed w1.
  assert (Hclose :
    Enhanced.close (enhanced_self up) (world0 up ∅) = (Ok closed, w1)).
  { reflexivity. }
  destruct (closed_instance_not_initialized (client up) _ _ _ _ Hclose)
    as (Hcreate & Hread & Hupdate & Hdelete).
  split; [exact Hclose|].
  refine (conj _ (conj _ (conj _ _))).
  - apply Hcreate. reflexivity.
  - apply Hread. left. reflexivity.
  - apply Hupdate; reflexivity.
  - apply Hdelete. reflexivity.
Defined.

(** ** update and delete: the count returned (C9) *)

(** C9, as claimed, fails on the baseline variant: when the store reports no
    modified count, [int(res.modified_count)] raises [TypeError], which the
    [except PyMongoError] clause does not catch. *)
Lemma baseline_update_null_count_raises :
  modified_count (mc_update up_no_count) = None /\
  fst (Baseline.update (baseline_self up_no_count) name_rex set_age false false
         (world0 up_no_count ∅))
  = Raise (Exn TypeError
      "int() argument must be a string, a bytes-like object or a real number, not 'NoneType'") /\
  fst (Baseline.update (baseline_self up_no_count) name_rex set_age false false
         (world0 up_no_count ∅))
  <> Ok (coerced None).
Proof.
  split; [reflexivity|].
  assert (Hrun :
    fst (Baseline.update (baseline_self up_no_count) name_rex set_age false
           false (world0 up_no_count ∅))
    = Raise (Exn TypeError
        "int() argument must be a string, a bytes-like object or a real number, not 'NoneType'")).
  { vm_compute. reflexivity. }
  split; [exact Hrun|]. rewrite Hrun. discriminate.
Qed.

(** C9, amended.  When the store client answers the request with a result,
    the enhanced variant's [update] and [delete] return the modified and
    the deleted count it reports, zero when it reports none.  The baseline
    variant's [update] and [delete] return the count the store reports when
    it reports one. *)
Theorem counts_returned (cl : Client) :
  (forall (self : Enhanced.AnimalShelter cl) client query update_doc many
          upsert w res s',
     Enhanced._client self = Some client ->
     is_nonempty_dict query = true -> is_nonempty_dict update_doc = true ->
     (if many : bool then update_many cl else update_one cl)
       (Collection client (Enhanced._db_name self) (Enhanced._col_name self))
       query update_doc upsert (w_store w) = (Ok res, s') ->
     fst (Enhanced.update self query update_doc many upsert w)
     = Ok (coerced (modified_count res))) /\
  (forall (self : Enhanced.AnimalShelter cl) client query many w res s',
     Enhanced._client self = Some client ->
     is_nonempty_dict query = true ->
     (if many : bool then delete_many cl else delete_one cl)
       (Collection client (Enhanced._db_name self) (Enhanced._col_name self))
       query (w_store w) = (Ok res, s') ->
     fst (Enhanced.delete self query many w)
     = Ok (coerced (deleted_count res))) /\
  (forall (self : Baseline.AnimalShelter cl) query update_doc many upsert w
          res s' n,
     isinstance_dict query = true -> isinstance_dict update_doc = true ->
     (if many : bool then update_many cl else update_one cl)
       (Baseline.collection self) query update_doc upsert (w_store w)
     = (Ok res, s') ->
     modified_count res = Some n ->
     fst (Baseline.update self query update_doc many upsert w) = Ok n) /\
  (forall (self : Baseline.AnimalShelter cl) query many w res s' n,
     isinstance_dict query = true ->
     (if many : bool then delete_many cl else delete_one cl)
       (Baseline.collection self) query (w_store w) = (Ok res, s') ->
     deleted_count res = Some n ->
     fst (Baseline.delete self query many w) = Ok n).
Proof.
  refine (conj _ (conj _ (conj _ _))).
  - intros self client query update_doc many upsert w res s' Hclient Hquery
      Hupdate Hcall.
    apply is_nonempty_dict_true in Hquery as [Hq Hqt].
    apply is_nonempty_dict_true in Hupdate as [Hu Hut].
    unfold Enhanced.update, Enhanced.collection.
    rewrite Hq, Hqt, Hu, Hut, Hclient. simpl. unfold_monad.
    destruct many; rewrite Hcall; simpl; rewrite py_or_coerced; reflexivity.
  - intros self client query many w res s' Hclient Hquery Hcall.
    apply is_nonempty_dict_true in Hquery as [Hq Hqt].
    unfold Enhanced.delete, Enhanced.collection.
    rewrite Hq, Hqt, Hclient. simpl. unfold_monad.
    destruct many; rewrite Hcall; simpl; rewrite py_or_coerced; reflexivity.
  - intros self query update_doc many upsert w res s' n Hq Hu Hcall Hcount.
    unfold Baseline.update. rewrite Hq, Hu. simpl. unfold_monad.
    destruct many; rewrite Hcall; simpl; rewrite Hcount; reflexivity.
  - intros self query many w res s' n Hq Hcall Hcount.
    unfold Baseline.delete. rewrite Hq. simpl. unfold_monad.
    destruct many; rewrite Hcall; simpl; rewrite Hcount; reflexivity.
Qed.

Lemma counts_returned_witness :
  fst (Enhanced.update (enhanced_self up_no_count) name_rex set_age false false
         (world0 up_no_count ∅)) = Ok 0 /\
  fst (Enhanced.delete (enhanced_self up_no_count) name_rex true
         (world0 up_no_count ∅)) = Ok 0 /\
  fst (Baseline.update (baseline_self up) name_rex set_age true false
         (world0 up ∅)) = Ok 1 /\
  fst (Baseline.delete (baseline_self up) name_rex false (world0 up ∅)) = Ok 1.
Proof.
  refine (conj _ (conj _ (conj _ _))).
  - apply (proj1 (counts_returned (client up_no_count))
             (enhanced_self up_no_count) tt name_rex set_age false false
             (world0 up_no_count ∅) (mc_update up_no_count) tt);
      reflexivity.
  - apply (proj1 (proj2 (counts_returned (client up_no_count)))
             (enhanced_self up_no_count) tt name_rex true
             (world0 up_no_count ∅) (mc_delete up_no_count) tt);
      reflexivity.
  - apply (proj1 (proj2 (proj2 (counts_returned (client up))))
             (baseline_self up) name_rex set_age true false
             (world0 up ∅) (mc_update up) tt 1);
      reflexivity.
  - apply (proj2 (proj2 (proj2 (counts_returned (client up))))
             (baseline_self up) name_rex false
             (world0 up ∅) (mc_delete up) tt 1);
      reflexivity.
Defined.

(** ** [_clean_results] leaves its arguments alone (C10) *)

Lemma Forall2_impl_l {A B} (P : A -> Prop) (R R' : A -> B -> Prop) l k :
  Forall P l -> Forall2 R l k ->
  (forall x y, P x -> R x y -> R' x y) ->
  Forall2 R' l k.
Proof.
  intros HP HR Himpl. induction HR as [|x y l k Hxy HR IH]; [constructor|].
  apply Forall_cons in HP as [Hx HP]. constructor; auto.
Qed.

(** The loop, from any accumulator and heap in which the documents are
    allocated: it returns, appending one new reference per document; what was
    allocated before is unchanged; each new reference is fresh and holds the
    items of its document without ["_id"]. *)
Lemma heap_clean_results_loop docs :
  forall cleaned (h : Heap.heap),
    Forall (fun l => is_Some (h !! l)) docs ->
    exists new h',
      Heap._clean_results_loop cleaned docs h = Some (cleaned ++ new, h') /\
      (forall l, is_Some (h !! l) -> h' !! l = h !! l) /\
      Forall2 (fun l l' => h !! l' = None /\
                           h' !! l' = delete "_id" <$> h !! l) docs new /\
      NoDup new.
Proof.
  induction docs as [|doc docs IH]; intros cleaned h Halloc.
  - exists [], h. simpl. rewrite app_nil_r.
    repeat split; auto using Forall2_nil, NoDup_nil_2.
  - apply Forall_cons in Halloc as [[items Hdoc] Halloc].
    simpl. unfold Heap.dict_copy, Heap.dict_pop. rewrite Hdoc.
    set (d := fresh (dom h)).
    assert (Hfresh : h !! d = None).
    { apply not_elem_of_dom. apply is_fresh. }
    rewrite lookup_insert_eq, insert_insert_eq.
    set (h2 := <[d := delete "_id" items]> h).
    assert (Hkeep : forall l, is_Some (h !! l) -> h2 !! l = h !! l).
    { intros l [x Hl]. unfold h2. apply lookup_insert_ne. congruence. }
    destruct (IH (cleaned ++ [d]) h2) as (new & h' & Hrun & Hframe & Hnew & Hnd).
    { eapply Forall_impl; [exact Halloc|]. intros l Hl. simpl.
      rewrite (Hkeep l Hl). exact Hl. }
    exists (d :: new), h'. rewrite Hrun, <- app_assoc. simpl.
    assert (Hd2 : h2 !! d = Some (delete "_id" items)).
    { unfold h2. apply lookup_insert_eq. }
    repeat split.
    + intros l Hl. rewrite <- (Hkeep l Hl). apply Hframe.
      rewrite (Hkeep l Hl). exact Hl.
    + constructor.
      * split; [exact Hfresh|]. rewrite Hdoc. simpl. rewrite <- Hd2.
        apply Hframe. rewrite Hd2. eauto.
      * eapply Forall2_impl_l; [exact Halloc|exact Hnew|].
        intros l l' Hl [Hl' Hcopy]. split.
        -- destruct (h !! l') as [x|] eqn:Hx; [|reflexivity].
           rewrite Hkeep in Hl' by eauto. congruence.
        -- rewrite Hcopy, (Hkeep l Hl). reflexivity.
    + apply NoDup_cons. split; [|exact Hnd].
      intros Hin. apply list_elem_of_lookup_1 in Hin as [i Hi].
      destruct (Forall2_lookup_r _ _ _ _ _ Hnew Hi) as (l & _ & Hl' & _).
      congruence.
Qed.

(** C10.  Run on a heap in which the documents it is given are allocated,
    [_clean_results] returns, and afterwards: every dict object that existed
    before, the documents it was given among them, holds exactly the items
    it held, ["_id"] included; the references it returns are new, pairwise
    distinct objects; and the i-th of them holds the items of the i-th
    document without ["_id"]. *)
Theorem clean_results_does_not_mutate (docs : list Heap.loc) (h : Heap.heap) :
  Forall (fun l => is_Some (h !! l)) docs ->
  exists cleaned h',
    Heap._clean_results docs h = Some (cleaned, h') /\
    (forall l, is_Some (h !! l) -> h' !! l = h !! l) /\
    Forall (fun l => h' !! l = h !! l) docs /\
    Forall2 (fun l l' => h !! l' = None /\
                         h' !! l' = delete "_id" <$> h !! l) docs cleaned /\
    NoDup cleaned.
Proof.
  intros Halloc.
  destruct (heap_clean_results_loop docs [] h Halloc)
    as (cleaned & h' & Hrun & Hframe & Hnew & Hnd).
  exists cleaned, h'. repeat split; auto.
  eapply Forall_impl; [exact Halloc|]. exact Hframe.
Qed.

Lemma clean_results_does_not_mutate_witness :
  let h : Heap.heap := {[ 1%positive := rex; 2%positive := luna ]} in
  let docs := [1%positive; 2%positive; 1%positive] in
  Forall (fun l => is_Some (h !! l)) docs /\
  exists cleaned h',
    Heap._clean_results docs h = Some (cleaned, h') /\
    (forall l, is_Some (h !! l) -> h' !! l = h !! l) /\
    Forall (fun l => h' !! l = h !! l) docs /\
    Forall2 (fun l l' => h !! l' = None /\
                         h' !! l' = delete "_id" <$> h !! l) docs cleaned /\
    NoDup cleaned.
Proof.
  intros h docs.
  assert (Halloc : Forall (fun l => is_Some (h !! l)) docs).
  { repeat (constructor; [eexists; reflexivity|]). constructor. }
  split; [exact Halloc|].
  exact (clean_results_does_not_mutate docs h Halloc).
Defined.

(** The value-level [_clean_results] is what the heap-level one computes:
    the objects returned hold [Enhanced._clean_results] of the items of the
    documents given. *)
Lemma heap_clean_results_refines (docs : list Heap.loc) (h : Heap.heap)
    (items : list doc) cleaned h' :
  Heap.deref h docs = Some <$> items ->
  Heap._clean_results docs h = Some (cleaned, h') ->
  Heap.deref h' cleaned = Some <$> Enhanced._clean_results items.
Proof.
  intros Hitems Hrun.
  assert (Halloc : Forall (fun l => is_Some (h !! l)) docs).
  { apply Forall_forall. intros l Hl.
    apply list_elem_of_lookup_1 in Hl as [i Hi].
    assert (Hd : Heap.deref h docs !! i = Some (h !! l)).
    { unfold Heap.deref. rewrite list_lookup_fmap, Hi. reflexivity. }
    rewrite Hitems, list_lookup_fmap in Hd.
    destruct (items !! i) as [x|]; [|discriminate Hd].
    injection Hd as <-. eauto. }
  destruct (heap_clean_results_loop docs [] h Halloc)
    as (cleaned0 & h0 & Hrun0 & _ & Hnew & _).
  unfold Heap._clean_results in Hrun. rewrite Hrun0 in Hrun.
  injection Hrun as <- <-. simpl in Hnew.
  rewrite _clean_results_map. clear Hrun0 Halloc.
  revert items Hitems.
  induction Hnew as [|l l' docs' new' [_ Hcopy] _ IH]; intros items Hitems.
  - destruct items; [reflexivity|discriminate Hitems].
  - destruct items as [|x items]; [discriminate Hitems|].
    simpl in Hitems. injection Hitems as Hx Hitems.
    simpl. rewrite Hcopy, Hx. simpl. f_equal. apply IH. exact Hitems.
Qed.


(** * Further properties *)

(** ** [_clean_results] on values *)

(** [_clean_results] keeps the number and the order of the documents, and
    in each document every field other than ["_id"], with its value. *)
Theorem clean_results_keeps_other_fields (docs : list doc) :
  length (Enhanced._clean_results docs) = length docs /\
  forall i d,
    docs !! i = Some d ->
    exists d',
      Enhanced._clean_results docs !! i = Some d' /\
      forall k, k <> "_id" -> d' !! k = d !! k.
Proof.
  rewrite _clean_results_map. split.
  - apply length_map.
  - intros i d Hi. exists (delete "_id" d). split.
    + change (map (delete "_id") docs) with (delete "_id" <$> docs).
      rewrite list_lookup_fmap, Hi. reflexivity.
    + intros k Hk. apply lookup_delete_ne. congruence.
Qed.

Lemma clean_results_keeps_other_fields_witness :
  exists d',
    Enhanced._clean_results [rex; luna] !! 1%nat = Some d' /\
    forall k, k <> "_id" -> d' !! k = luna !! k.
Proof.
  apply (proj2 (clean_results_keeps_other_fields [rex; luna]) 1%nat luna).
  reflexivity.
Defined.

(** Documents that carry no ["_id"] come back as they are. *)
Theorem clean_results_without_id (docs : list doc) :
  Forall (fun d : doc => d !! "_id" = None) docs ->
  Enhanced._clean_results docs = docs.
Proof.
  rewrite _clean_results_map. induction 1 as [|d docs Hd _ IH]; simpl.
  - reflexivity.
  - rewrite IH, delete_id by exact Hd. reflexivity.
Qed.

Lemma clean_results_without_id_witness :
  Enhanced._clean_results [{[ "name" := VStr "Rex" ]}]
  = [{[ "name" := VStr "Rex" ]}].
Proof.
  apply clean_results_without_id.
  repeat constructor.
Defined.

(** Cleaning twice is cleaning once. *)
Theorem clean_results_idempotent (docs : list doc) :
  Enhanced._clean_results (Enhanced._clean_results docs)
  = Enhanced._clean_results docs.
Proof.
  rewrite !_clean_results_map, map_map. apply map_ext.
  intros d. apply delete_id, lookup_delete_eq.
Qed.

(** ** Argument guards *)

Lemma is_nonempty_dict_guard v :
  negb (isinstance_dict v) || negb (truthy v) = negb (is_nonempty_dict v).
Proof. destruct v; reflexivity. Qed.

(** An operation that added an event to the trace was not rejected. *)
Lemma events_not_rejected {cl A} (m : M cl A) (w : world cl) :
  events_of m w <> [] -> ~ rejected m w.
Proof. intros Hev Hrej. apply Hev, rejected_no_events, Hrej. Qed.

(** Run an operation through every answer the store client can give and
    every branch it can take. *)
Ltac explore :=
  unfold_monad; simpl;
  repeat first
    [ store_answer; simpl
    | caught_case; simpl
    | match goal with
      | |- context [match ?x with _ => _ end] => is_var x; destruct x; simpl
      | |- context [match modified_count ?r with _ => _ end] =>
          destruct (modified_count r) eqn:?; simpl
      | |- context [match deleted_count ?r with _ => _ end] =>
          destruct (deleted_count r) eqn:?; simpl
      | |- context [if ?b then _ else _] => destruct b eqn:?; simpl
      end ].

(** Settle a goal [events_of m w <> []] by running [m]. *)
Ltac sends_something :=
  unfold events_of; explore; trace_shape; discriminate.

(** The guards of the enhanced variant, exactly.  Each operation fails with
    [ValueError] before anything is done if and only if its argument is not
    what the guard asks for: a non-empty mapping for [create] and [delete],
    two non-empty mappings for [update], [None] or a mapping for [read].
    This holds whether the instance is open or closed: the guard comes
    before the "not initialized" check. *)
Theorem enhanced_guards_exact (cl : Client) (self : Enhanced.AnimalShelter cl) :
  (forall data w,
     rejected (Enhanced.create self data) w <->
     is_nonempty_dict data = false) /\
  (forall query projection limit sort w,
     rejected (Enhanced.read self query projection limit sort) w <->
     query <> VNone /\ isinstance_dict query = false) /\
  (forall query update_doc many upsert w,
     rejected (Enhanced.update self query update_doc many upsert) w <->
     is_nonempty_dict query = false \/ is_nonempty_dict update_doc = false) /\
  (forall query many w,
     rejected (Enhanced.delete self query many) w <->
     is_nonempty_dict query = false).
Proof.
  refine (conj _ (conj _ (conj _ _))).
  - intros data w. unfold Enhanced.create, Enhanced.collection.
    rewrite is_nonempty_dict_guard.
    destruct (is_nonempty_dict data); simpl.
    + split; [|discriminate]. intros Hrej. exfalso. revert Hrej.
      destruct (Enhanced._client self).
      * apply events_not_rejected. sends_something.
      * intros [msg Hmsg]. unfold_monad. simpl in Hmsg. discriminate Hmsg.
    + split; [reflexivity|]. intros _. eexists. reflexivity.
  - intros query projection limit sort w.
    unfold Enhanced.read, Enhanced.collection.
    destruct (negb (isinstance_dict _)) eqn:Hguard.
    + split; [|intros _; eexists; reflexivity].
      intros _. destruct query; simpl in *; try discriminate Hguard; auto.
    + split.
      * intros Hrej. exfalso. revert Hrej.
        destruct (Enhanced._client self).
        -- apply events_not_rejected. sends_something.
        -- intros [msg Hmsg]. unfold_monad. simpl in Hmsg. discriminate Hmsg.
      * intros [Hnone Hdict]. destruct query; simpl in *; congruence.
  - intros query update_doc many upsert w.
    unfold Enhanced.update, Enhanced.collection.
    rewrite !is_nonempty_dict_guard.
    destruct (is_nonempty_dict query); simpl;
      [|split; [auto|intros _; eexists; reflexivity]].
    destruct (is_nonempty_dict update_doc); simpl;
      [|split; [auto|intros _; eexists; reflexivity]].
    split; [|intros [?|?]; discriminate].
    intros Hrej. exfalso. revert Hrej.
    destruct (Enhanced._client self).
    + apply events_not_rejected. sends_something.
    + intros [msg Hmsg]. unfold_monad. simpl in Hmsg. discriminate Hmsg.
  - intros query many w. unfold Enhanced.delete, Enhanced.collection.
    rewrite is_nonempty_dict_guard.
    destruct (is_nonempty_dict query); simpl.
    + split; [|discriminate]. intros Hrej. exfalso. revert Hrej.
      destruct (Enhanced._client self).
      * apply events_not_rejected. sends_something.
      * intros [msg Hmsg]. unfold_monad. simpl in Hmsg. discriminate Hmsg.
    + split; [reflexivity|]. intros _. eexists. reflexivity.
Qed.

Lemma enhanced_guards_exact_witness :
  let closed : Enhanced.AnimalShelter (client up) :=
    {| Enhanced._client := None;
       Enhanced._db_name := "aac";
       Enhanced._col_name := "animals" |} in
  rejected (Enhanced.create closed (VDict ∅)) (world0 up ∅) /\
  rejected (Enhanced.read closed (VStr "Rex") None (VInt 0) None)
    (world0 up ∅) /\
  rejected (Enhanced.update closed (VList []) set_age false false)
    (world0 up ∅) /\
  rejected (Enhanced.delete closed VNone true) (world0 up ∅).
Proof.
  intros closed.
  destruct (enhanced_guards_exact (client up) closed)
    as (Hcreate & Hread & Hupdate & Hdelete).
  refine (conj _ (conj _ (conj _ _))).
  - apply Hcreate. reflexivity.
  - apply Hread. split; [discriminate|reflexivity].
  - apply Hupdate. left. reflexivity.
  - apply Hdelete. reflexivity.
Defined.

(** A [read] passes its guard exactly on [None] and on mappings. *)
Lemma read_guard_passes query :
  query = VNone \/ isinstance_dict query = true ->
  negb (isinstance_dict match query with VNone => VDict ∅ | _ => query end)
  = false.
Proof.
  intros [-> | Hq]; [reflexivity|].
  destruct query; try discriminate Hq; reflexivity.
Qed.

(** The guards of the baseline variant, exactly.  [create] asks for a
    non-empty mapping, [read] for [None] or a mapping, [update] for two
    mappings and [delete] for a mapping; an operation fails with
    [ValueError] before anything is done if and only if its argument is
    something else.  With an argument that passes, the first thing the
    operation does is to send its request to the store client, with the
    argument as given. *)
Theorem baseline_guards_exact (cl : Client) (self : Baseline.AnimalShelter cl) :
  (forall data w,
     rejected (Baseline.create self data) w <->
     is_nonempty_dict data = false) /\
  (forall query projection limit sort w,
     rejected (Baseline.read self query projection limit sort) w <->
     query <> VNone /\ isinstance_dict query = false) /\
  (forall query update_doc many upsert w,
     rejected (Baseline.update self query update_doc many upsert) w <->
     isinstance_dict query = false \/ isinstance_dict update_doc = false) /\
  (forall query many w,
     rejected (Baseline.delete self query many) w <->
     isinstance_dict query = false) /\
  (forall data w,
     is_nonempty_dict data = true ->
     exists r evs,
       events_of (Baseline.create self data) w
       = Call (CInsertOne data) r :: evs) /\
  (forall query projection limit sort w,
     query = VNone \/ isinstance_dict query = true ->
     exists r evs,
       events_of (Baseline.read self query projection limit sort) w
       = Call (CFind match query with VNone => VDict ∅ | _ => query end
                 projection) r :: evs) /\
  (forall query update_doc many upsert w,
     isinstance_dict query = true -> isinstance_dict update_doc = true ->
     exists r evs,
       events_of (Baseline.update self query update_doc many upsert) w
       = Call (update_request query update_doc many upsert) r :: evs) /\
  (forall query many w,
     isinstance_dict query = true ->
     exists r evs,
       events_of (Baseline.delete self query many) w
       = Call (delete_request query many) r :: evs).
Proof.
  refine (conj _ (conj _ (conj _ (conj _ (conj _ (conj _ (conj _ _))))))).
  - intros data w. unfold Baseline.create.
    rewrite is_nonempty_dict_guard.
    destruct (is_nonempty_dict data); simpl.
    + split; [|discriminate]. intros Hrej. exfalso. revert Hrej.
      apply events_not_rejected. sends_something.
    + split; [reflexivity|]. intros _. eexists. reflexivity.
  - intros query projection limit sort w. unfold Baseline.read.
    destruct (negb (isinstance_dict _)) eqn:Hguard.
    + split; [|intros _; eexists; reflexivity].
      intros _. destruct query; simpl in *; try discriminate Hguard; auto.
    + split.
      * intros Hrej. exfalso. revert Hrej.
        apply events_not_rejected. sends_something.
      * intros [Hnone Hdict]. destruct query; simpl in *; congruence.
  - intros query update_doc many upsert w. unfold Baseline.update.
    destruct (isinstance_dict query); simpl;
      [|split; [auto|intros _; eexists; reflexivity]].
    destruct (isinstance_dict update_doc); simpl;
      [|split; [auto|intros _; eexists; reflexivity]].
    split; [|intros [?|?]; discriminate].
    intros Hrej. exfalso. revert Hrej.
    apply events_not_rejected. sends_something.
  - intros query many w. unfold Baseline.delete.
    destruct (isinstance_dict query); simpl.
    + split; [|discriminate]. intros Hrej. exfalso. revert Hrej.
      apply events_not_rejected. sends_something.
    + split; [reflexivity|]. intros _. eexists. reflexivity.
  - intros data w Hdata. unfold events_of, Baseline.create.
    rewrite is_nonempty_dict_guard, Hdata.
    explore; trace_shape; eexists _, _; reflexivity.
  - intros query projection limit sort w Hquery.
    apply read_guard_passes in Hquery.
    unfold events_of, Baseline.read. rewrite Hquery.
    generalize (match query with VNone => VDict ∅ | _ => query end).
    clear Hquery query. intros query.
    destruct sort as [[|key spec]|];
      destruct (isinstance_int limit && (0 <? int_value limit));
      unfold_monad; simpl; repeat (store_answer; simpl); try caught_case;
      trace_shape; eexists _, _; reflexivity.
  - intros query update_doc many upsert w Hq Hu.
    unfold events_of, Baseline.update, update_request. rewrite Hq, Hu.
    explore; trace_shape; eexists _, _; reflexivity.
  - intros query many w Hq.
    unfold events_of, Baseline.delete, delete_request. rewrite Hq.
    explore; trace_shape; eexists _, _; reflexivity.
Qed.

Lemma baseline_guards_exact_witness :
  rejected (Baseline.create (baseline_self up) (VList [])) (world0 up ∅) /\
  rejected (Baseline.read (baseline_self up) (VInt 7) None (VInt 0) None)
    (world0 up ∅) /\
  rejected (Baseline.update (baseline_self up) name_rex (VStr "x") false false)
    (world0 up ∅) /\
  rejected (Baseline.delete (baseline_self up) VNone false) (world0 up ∅) /\
  ~ rejected (Baseline.delete (baseline_self up) (VDict ∅) true) (world0 up ∅) /\
  (exists r evs,
     events_of (Baseline.create (baseline_self down) name_rex) (world0 down ∅)
     = Call (CInsertOne name_rex) r :: evs) /\
  (exists r evs,
     events_of (Baseline.read (baseline_self up) VNone None (VInt 0) None)
       (world0 up ∅)
     = Call (CFind (VDict ∅) None) r :: evs) /\
  (exists r evs,
     events_of
       (Baseline.update (baseline_self up) (VDict ∅) (VDict ∅) true false)
       (world0 up ∅)
     = Call (CUpdateMany (VDict ∅) (VDict ∅) false) r :: evs) /\
  (exists r evs,
     events_of (Baseline.delete (baseline_self up) (VDict ∅) true)
       (world0 up ∅)
     = Call (CDeleteMany (VDict ∅)) r :: evs).
Proof.
  destruct (baseline_guards_exact (client up) (baseline_self up))
    as (Hcreate & Hread & Hupdate & Hdelete
        & _ & Hread_sends & Hupdate_sends & Hdelete_sends).
  destruct (baseline_guards_exact (client down) (baseline_self down))
    as (_ & _ & _ & _ & Hcreate_sends & _).
  refine (conj _ (conj _ (conj _ (conj _ (conj _
           (conj _ (conj _ (conj _ _)))))))).
  - apply Hcreate. reflexivity.
  - apply Hread. split; [discriminate|reflexivity].
  - apply Hupdate. right. reflexivity.
  - apply Hdelete. reflexivity.
  - intros Hrej. apply Hdelete in Hrej. discriminate Hrej.
  - apply Hcreate_sends. reflexivity.
  - apply (Hread_sends VNone None (VInt 0) None). left. reflexivity.
  - apply (Hupdate_sends (VDict ∅) (VDict ∅) true false); reflexivity.
  - apply (Hdelete_sends (VDict ∅) true). reflexivity.
Defined.

(** ** Failures of the store client *)

(** Finish a branch of a run in which the trace is known to hold a request
    that raised. *)
Ltac failure_leaf :=
  trace_shape; rewrite ?drop_all;
  let Hin := fresh "Hin" in
  intros Hin; trace_cases Hin;
  try congruence; try (split; reflexivity).



(** The baseline variant's [delete] swallows a store-level failure like the
    other three operations: when the request raises an exception [e]
    deriving from [PyMongoError], [delete] returns [0] and the last thing it
    does is to print the diagnostic line for [e]. *)
Theorem baseline_delete_fail_soft (cl : Client)
    (self : Baseline.AnimalShelter cl) query many w c e :
  is_PyMongoError e = true ->
  Call c (Raised e) ∈ events_of (Baseline.delete self query many) w ->
  fst (Baseline.delete self query many w) = Ok 0 /\
  last (events_of (Baseline.delete self query many) w)
  = Some (Print ("[ERROR] Delete failed: " +:+ exn_msg e)).
Proof.
  intros He. unfold events_of, Baseline.delete. explore; failure_leaf.
Qed.

Lemma baseline_delete_fail_soft_witness :
  fst (Baseline.delete (baseline_self down) name_rex true (world0 down ∅))
  = Ok 0 /\
  last (events_of (Baseline.delete (baseline_self down) name_rex true)
          (world0 down ∅))
  = Some (Print "[ERROR] Delete failed: localhost:27017: timed out").
Proof.
  apply (baseline_delete_fail_soft (client down) (baseline_self down)
           name_rex true (world0 down ∅) (CDeleteMany name_rex) timeout).
  - reflexivity.
  - vm_compute. repeat constructor.
Defined.



(** When the store carries out an update or a delete and reports no count,
    the baseline variant raises [TypeError] to the caller although the
    request returned: the store is in the state the request left it in, and
    nothing is printed. *)
Theorem baseline_null_count_raises (cl : Client)
    (self : Baseline.AnimalShelter cl) :
  (forall query update_doc many upsert w res s',
     isinstance_dict query = true -> isinstance_dict update_doc = true ->
     (if many : bool then update_many cl else update_one cl)
       (Baseline.collection self) query update_doc upsert (w_store w)
     = (Ok res, s') ->
     modified_count res = None ->
     exists msg,
       Baseline.update self query update_doc many upsert w
       = (Raise (Exn TypeError msg),
          World s' (w_environ w)
            (w_trace w
             ++ [Call (update_request query update_doc many upsert) Returned]))) /\
  (forall query many w res s',
     isinstance_dict query = true ->
     (if many : bool then delete_many cl else delete_one cl)
       (Baseline.collection self) query (w_store w) = (Ok res, s') ->
     deleted_count res = None ->
     exists msg,
       Baseline.delete self query many w
       = (Raise (Exn TypeError msg),
          World s' (w_environ w)
            (w_trace w ++ [Call (delete_request query many) Returned]))).
Proof.
  split.
  - intros query update_doc many upsert w res s' Hq Hu Hcall Hcount.
    unfold Baseline.update, update_request. rewrite Hq, Hu. simpl.
    unfold_monad.
    destruct many; rewrite Hcall; simpl; rewrite Hcount; simpl;
      eexists; reflexivity.
  - intros query many w res s' Hq Hcall Hcount.
    unfold Baseline.delete, delete_request. rewrite Hq. simpl. unfold_monad.
    destruct many; rewrite Hcall; simpl; rewrite Hcount; simpl;
      eexists; reflexivity.
Qed.

Lemma baseline_null_count_raises_witness :
  exists msg,
    Baseline.delete (baseline_self up_no_count) name_rex true
      (world0 up_no_count ∅)
    = (Raise (Exn TypeError msg),
       after up_no_count ∅ [Call (CDeleteMany name_rex) Returned]).
Proof.
  apply (proj2 (baseline_null_count_raises (client up_no_count)
                  (baseline_self up_no_count))
           name_rex true (world0 up_no_count ∅) (mc_delete up_no_count) tt);
    reflexivity.
Defined.

(** ** create *)

(** What [True] from [create] means, in both variants: the insert request
    was sent with the document as given, the store returned a result, the
    write was acknowledged and an identity was assigned. *)
Theorem create_true_means_acknowledged (cl : Client) :
  (forall (self : Baseline.AnimalShelter cl) data w w',
     Baseline.create self data w = (Ok true, w') ->
     exists res,
       insert_one cl (Baseline.collection self) data (w_store w)
       = (Ok res, w_store w') /\
       acknowledged res = true /\ truthy (inserted_id res) = true) /\
  (forall (self : Enhanced.AnimalShelter cl) data w w',
     Enhanced.create self data w = (Ok true, w') ->
     exists client res,
       Enhanced._client self = Some client /\
       insert_one cl
         (Collection client (Enhanced._db_name self) (Enhanced._col_name self))
         data (w_store w)
       = (Ok res, w_store w') /\
       acknowledged res = true /\ truthy (inserted_id res) = true).
Proof.
  split.
  - intros self data w w'. unfold Baseline.create.
    destruct (negb (isinstance_dict data) || negb (truthy data));
      [discriminate|].
    unfold_monad. store_answer; simpl.
    + intros [= Hok <-]. simpl. apply andb_true_iff in Hok as [? ?]. eauto.
    + caught_case; discriminate.
  - intros self data w w'. unfold Enhanced.create, Enhanced.collection.
    destruct (negb (isinstance_dict data) || negb (truthy data));
      [discriminate|].
    destruct (Enhanced._client self) as [client|];
      unfold_monad; simpl; [|discriminate].
    store_answer; simpl.
    + intros [= Hok <-]. simpl. apply andb_true_iff in Hok as [? ?].
      eauto 6.
    + caught_case; discriminate.
Qed.

Lemma create_true_means_acknowledged_witness :
  exists res,
    insert_one (client up) (Baseline.collection (baseline_self up)) name_rex
      (w_store (world0 up ∅))
    = (Ok res, w_store (after up ∅ [Call (CInsertOne name_rex) Returned])) /\
    acknowledged res = true /\ truthy (inserted_id res) = true.
Proof.
  apply (proj1 (create_true_means_acknowledged (client up))
           (baseline_self up) name_rex (world0 up ∅)
           (after up ∅ [Call (CInsertOne name_rex) Returned])).
  reflexivity.
Defined.

(** A write that the store does not acknowledge, or for which it assigns
    no identity, makes [create] return [False] in both variants; the
    enhanced variant logs the outcome. *)
Theorem create_unacknowledged_is_false (cl : Client) :
  (forall (self : Baseline.AnimalShelter cl) data w res s',
     is_nonempty_dict data = true ->
     insert_one cl (Baseline.collection self) data (w_store w) = (Ok res, s') ->
     acknowledged res = false \/ truthy (inserted_id res) = false ->
     fst (Baseline.create self data w) = Ok false) /\
  (forall (self : Enhanced.AnimalShelter cl) client data w res s',
     Enhanced._client self = Some client ->
     is_nonempty_dict data = true ->
     insert_one cl
       (Collection client (Enhanced._db_name self) (Enhanced._col_name self))
       data (w_store w) = (Ok res, s') ->
     acknowledged res = false \/ truthy (inserted_id res) = false ->
     fst (Enhanced.create self data w) = Ok false /\
     last (events_of (Enhanced.create self data) w)
     = Some (Log INFO "Inserted document with _id=%s (success=%s)"
               [LVal (inserted_id res); LBool false])).
Proof.
  split.
  - intros self data w res s' Hdata Hcall Hres.
    unfold Baseline.create. rewrite is_nonempty_dict_guard, Hdata. simpl.
    unfold_monad. rewrite Hcall. simpl.
    destruct Hres as [-> | ->]; rewrite ?andb_false_r; reflexivity.
  - intros self client data w res s' Hclient Hdata Hcall Hres.
    unfold events_of, Enhanced.create, Enhanced.collection.
    rewrite is_nonempty_dict_guard, Hdata, Hclient. simpl.
    unfold_monad. simpl. rewrite Hcall. trace_shape.
    destruct Hres as [-> | ->]; rewrite ?andb_false_r; split; reflexivity.
Qed.

Lemma create_unacknowledged_is_false_witness :
  fst (Enhanced.create (enhanced_self empty) name_rex (world0 empty ∅))
  = Ok false /\
  last (events_of (Enhanced.create (enhanced_self empty) name_rex)
          (world0 empty ∅))
  = Some (Log INFO "Inserted document with _id=%s (success=%s)"
            [LVal (VStr "65a3"); LBool false]).
Proof.
  apply (proj2 (create_unacknowledged_is_false (client empty))
           (enhanced_self empty) tt name_rex (world0 empty ∅)
           (mc_insert empty) tt).
  - reflexivity.
  - reflexivity.
  - reflexivity.
  - left. reflexivity.
Defined.

(** ** The requests an operation sends *)

(** [update] and [delete] send exactly one request, the single-document or
    the multi-document one as [many] says, whatever the store answers: a
    call with [many=False] never issues a multi-document request, and no
    request is retried.  (In the enhanced variant this is for an open
    instance and arguments that pass the guards.) *)
Theorem update_delete_single_request (cl : Client) :
  (forall (self : Baseline.AnimalShelter cl) query update_doc many upsert w,
     isinstance_dict query = true -> isinstance_dict update_doc = true ->
     requests (events_of (Baseline.update self query update_doc many upsert) w)
     = [update_request query update_doc many upsert]) /\
  (forall (self : Baseline.AnimalShelter cl) query many w,
     isinstance_dict query = true ->
     requests (events_of (Baseline.delete self query many) w)
     = [delete_request query many]) /\
  (forall (self : Enhanced.AnimalShelter cl) query update_doc many upsert w,
     is_Some (Enhanced._client self) ->
     is_nonempty_dict query = true -> is_nonempty_dict update_doc = true ->
     requests (events_of (Enhanced.update self query update_doc many upsert) w)
     = [update_request query update_doc many upsert]) /\
  (forall (self : Enhanced.AnimalShelter cl) query many w,
     is_Some (Enhanced._client self) ->
     is_nonempty_dict query = true ->
     requests (events_of (Enhanced.delete self query many) w)
     = [delete_request query many]).
Proof.
  refine (conj _ (conj _ (conj _ _))).
  - intros self query update_doc many upsert w Hq Hu.
    unfold events_of, Baseline.update, update_request. rewrite Hq, Hu.
    explore; trace_shape; reflexivity.
  - intros self query many w Hq.
    unfold events_of, Baseline.delete, delete_request. rewrite Hq.
    explore; trace_shape; reflexivity.
  - intros self query update_doc many upsert w [client Hclient] Hq Hu.
    unfold events_of, Enhanced.update, Enhanced.collection, update_request.
    rewrite !is_nonempty_dict_guard, Hq, Hu, Hclient.
    explore; trace_shape; reflexivity.
  - intros self query many w [client Hclient] Hq.
    unfold events_of, Enhanced.delete, Enhanced.collection, delete_request.
    rewrite is_nonempty_dict_guard, Hq, Hclient.
    explore; trace_shape; reflexivity.
Qed.

Lemma update_delete_single_request_witness :
  requests
    (events_of (Baseline.update (baseline_self down) name_rex set_age false true)
       (world0 down ∅))
  = [CUpdateOne name_rex set_age true] /\
  requests
    (events_of (Baseline.delete (baseline_self up) (VDict ∅) true)
       (world0 up ∅))
  = [CDeleteMany (VDict ∅)] /\
  requests
    (events_of (Enhanced.update (enhanced_self up) name_rex set_age true false)
       (world0 up ∅))
  = [CUpdateMany name_rex set_age false] /\
  requests
    (events_of (Enhanced.delete (enhanced_self down) name_rex false)
       (world0 down ∅))
  = [CDeleteOne name_rex].
Proof.
  refine (conj _ (conj _ (conj _ _))).
  - apply (proj1 (update_delete_single_request (client down))
             (baseline_self down) name_rex set_age false true (world0 down ∅));
      reflexivity.
  - apply (proj1 (proj2 (update_delete_single_request (client up)))
             (baseline_self up) (VDict ∅) true (world0 up ∅));
      reflexivity.
  - apply (proj1 (proj2 (proj2 (update_delete_single_request (client up))))
             (enhanced_self up) name_rex set_age true false (world0 up ∅));
      [eexists; reflexivity|reflexivity|reflexivity].
  - apply (proj2 (proj2 (proj2 (update_delete_single_request (client down))))
             (enhanced_self down) name_rex false (world0 down ∅));
      [eexists; reflexivity|reflexivity].
Defined.

(** Finish a branch of a [read]: the requests sent so far are a prefix of
    the plan, all of it unless a request raised, and a request that raised
    is the last one sent. *)
Ltac read_prefix := eexists; reflexivity.

Ltac read_complete :=
  first
    [ intros; reflexivity
    | let Hno := fresh "Hno" in
      intros Hno; exfalso; eapply Hno; repeat constructor ].

Ltac read_stops :=
  let c := fresh "c" in
  let e := fresh "e" in
  let Hin := fresh "Hin" in
  intros c e Hin; trace_cases Hin; reflexivity.

Ltac read_returned := first [intros; reflexivity | intros; discriminate].

(** The requests of a [read], in both variants.  A [read] whose query
    passes the guard sends the requests of [read_plan] in that order and no
    others: the find with the query ([{}] for [None]) and the projection;
    then the sort, only if a non-empty sort is given; then the limit, only
    if the limit is a positive [int]; then the iteration.  So the sort is
    always applied before the limit, and a limit of [0], a negative limit
    and a limit that is not an [int] bound nothing.  It stops at the first
    request that raises: a request that raised is the last request sent.
    It sends all of them when no request raises, and the enhanced variant
    has sent all of them whenever it returns documents. *)
Theorem read_requests_in_order (cl : Client) :
  (forall (self : Baseline.AnimalShelter cl) query projection limit sort w,
     query = VNone \/ isinstance_dict query = true ->
     requests (events_of (Baseline.read self query projection limit sort) w)
       `prefix_of` read_plan query projection limit sort /\
     ((forall c e,
         Call c (Raised e)
           ∉ events_of (Baseline.read self query projection limit sort) w) ->
      requests (events_of (Baseline.read self query projection limit sort) w)
      = read_plan query projection limit sort) /\
     (forall c e,
        Call c (Raised e)
          ∈ events_of (Baseline.read self query projection limit sort) w ->
        last (requests
                (events_of (Baseline.read self query projection limit sort) w))
        = Some c)) /\
  (forall (self : Enhanced.AnimalShelter cl) query projection limit sort w,
     is_Some (Enhanced._client self) ->
     query = VNone \/ isinstance_dict query = true ->
     requests (events_of (Enhanced.read self query projection limit sort) w)
       `prefix_of` read_plan query projection limit sort /\
     ((forall c e,
         Call c (Raised e)
           ∉ events_of (Enhanced.read self query projection limit sort) w) ->
      requests (events_of (Enhanced.read self query projection limit sort) w)
      = read_plan query projection limit sort) /\
     (forall c e,
        Call c (Raised e)
          ∈ events_of (Enhanced.read self query projection limit sort) w ->
        last (requests
                (events_of (Enhanced.read self query projection limit sort) w))
        = Some c) /\
     (forall docs w',
        Enhanced.read self query projection limit sort w = (Ok docs, w') ->
        requests (events_of (Enhanced.read self query projection limit sort) w)
        = read_plan query projection limit sort)).
Proof.
  split.
  - intros self query projection limit sort w Hquery.
    apply read_guard_passes in Hquery.
    unfold events_of, Baseline.read, read_plan. rewrite Hquery.
    generalize (match query with VNone => VDict ∅ | _ => query end).
    clear Hquery query. intros query.
    destruct sort as [[|key spec]|];
      destruct (isinstance_int limit && (0 <? int_value limit));
      unfold_monad; simpl; repeat (store_answer; simpl); try caught_case;
      trace_shape;
      (split; [read_prefix|split; [read_complete|read_stops]]).
  - intros self query projection limit sort w [client Hclient] Hquery.
    apply read_guard_passes in Hquery.
    unfold events_of, Enhanced.read, Enhanced.collection, read_plan.
    rewrite Hquery, Hclient.
    generalize (match query with VNone => VDict ∅ | _ => query end).
    clear Hquery query. intros query.
    destruct sort as [[|key spec]|];
      destruct (isinstance_int limit && (0 <? int_value limit));
      unfold_monad; simpl; repeat (store_answer; simpl); try caught_case;
      trace_shape;
      (split; [read_prefix
              |split; [read_complete|split; [read_stops|read_returned]]]).
Qed.

Lemma read_requests_in_order_witness :
  requests
    (events_of
       (Enhanced.read (enhanced_self up) VNone None (VInt 5)
          (Some [("name", 1)])) (world0 up ∅))
  = [CFind (VDict ∅) None; CSort [("name", 1)]; CLimit (VInt 5); CIterate] /\
  requests
    (events_of
       (Baseline.read (baseline_self up) name_rex None (VInt 0) (Some []))
       (world0 up ∅))
  = [CFind name_rex None; CIterate] /\
  last (requests
          (events_of
             (Baseline.read (baseline_self sort_fails) VNone None (VInt 5)
                (Some [("name", 1)])) (world0 sort_fails ∅)))
  = Some (CSort [("name", 1)]) /\
  last (requests
          (events_of
             (Enhanced.read (enhanced_self sort_fails) VNone None (VInt 5)
                (Some [("name", 1)])) (world0 sort_fails ∅)))
  = Some (CSort [("name", 1)]).
Proof.
  refine (conj _ (conj _ (conj _ _))).
  - destruct (proj2 (read_requests_in_order (client up))
                (enhanced_self up) VNone None (VInt 5) (Some [("name", 1)])
                (world0 up ∅)) as (_ & _ & _ & Hall).
    + eexists. reflexivity.
    + left. reflexivity.
    + etransitivity; [eapply Hall; reflexivity|]. vm_compute. reflexivity.
  - destruct (proj1 (read_requests_in_order (client up))
                (baseline_self up) name_rex None (VInt 0) (Some [])
                (world0 up ∅)) as (_ & Hall & _).
    + right. reflexivity.
    + etransitivity; [|vm_compute; reflexivity].
      apply Hall. intros c e Hin. vm_compute in Hin.
      repeat (apply elem_of_cons in Hin as [Hin|Hin]; [discriminate Hin|]).
      apply elem_of_nil in Hin. exact Hin.
  - destruct (proj1 (read_requests_in_order (client sort_fails))
                (baseline_self sort_fails) VNone None (VInt 5)
                (Some [("name", 1)]) (world0 sort_fails ∅))
      as (_ & _ & Hstops).
    + left. reflexivity.
    + apply (Hstops (CSort [("name", 1)]) timeout).
      vm_compute. repeat constructor.
  - destruct (proj2 (read_requests_in_order (client sort_fails))
                (enhanced_self sort_fails) VNone None (VInt 5)
                (Some [("name", 1)]) (world0 sort_fails ∅))
      as (_ & _ & Hstops & _).
    + eexists. reflexivity.
    + left. reflexivity.
    + apply (Hstops (CSort [("name", 1)]) timeout).
      vm_compute. repeat constructor.
Defined.

(** ** The two variants of [read] *)

(** On the same collection and from the same world, whenever the enhanced
    [read] returns documents, the baseline [read] returns documents too, and
    what it returns is the list the store client's iteration produced, as
    it produced it; the enhanced result is that list with ["_id"] removed
    from every document.  Both send the same requests and leave the store in
    the same state, the one the iteration left it in. *)
Theorem enhanced_read_cleans_baseline_read (cl : Client)
    (b : Baseline.AnimalShelter cl) (e : Enhanced.AnimalShelter cl) client
    query projection limit sort (w w' : world cl) docs :
  Enhanced._client e = Some client ->
  Baseline.collection b
  = Collection client (Enhanced._db_name e) (Enhanced._col_name e) ->
  Enhanced.read e query projection limit sort w = (Ok docs, w') ->
  exists raw wb,
    Baseline.read b query projection limit sort w = (Ok raw, wb) /\
    (exists cur s, cursor_list cl cur s = (Ok raw, w_store wb)) /\
    docs = Enhanced._clean_results raw /\
    w_store wb = w_store w' /\
    requests (events_of (Baseline.read b query projection limit sort) w)
    = requests (events_of (Enhanced.read e query projection limit sort) w).
Proof.
  intros Hclient Hcoll.
  unfold events_of, Enhanced.read, Baseline.read, Enhanced.collection.
  rewrite Hclient, Hcoll.
  destruct (negb (isinstance_dict _)); [discriminate|].
  generalize (match query with VNone => VDict ∅ | _ => query end).
  clear query. intros query.
  destruct sort as [[|key spec]|];
    destruct (isinstance_int limit && (0 <? int_value limit));
    unfold_monad; simpl; repeat (store_answer; simpl); try caught_case;
    try discriminate;
    intros [= <- <-]; eexists _, _; trace_shape; repeat split; eauto.
Qed.

Lemma enhanced_read_cleans_baseline_read_witness :
  exists raw wb,
    Baseline.read (baseline_self up) VNone None (VInt 0) None (world0 up ∅)
    = (Ok raw, wb) /\
    raw = [rex; luna] /\
    [delete "_id" rex; delete "_id" luna] = Enhanced._clean_results raw /\
    w_store wb
    = w_store
        (after up ∅
           [Call (CFind (VDict ∅) None) Returned;
            Call CIterate Returned;
            Log INFO "Read %d document(s) from collection" [LInt 2]]) /\
    requests
      (events_of (Baseline.read (baseline_self up) VNone None (VInt 0) None)
         (world0 up ∅))
    = requests
        (events_of (Enhanced.read (enhanced_self up) VNone None (VInt 0) None)
           (world0 up ∅)).
Proof.
  destruct (enhanced_read_cleans_baseline_read (client up) (baseline_self up)
              (enhanced_self up) tt VNone None (VInt 0) None (world0 up ∅)
              (after up ∅
                 [Call (CFind (VDict ∅) None) Returned;
                  Call CIterate Returned;
                  Log INFO "Read %d document(s) from collection" [LInt 2]])
              [delete "_id" rex; delete "_id" luna])
    as (raw & wb & Hrun & (cur & s & Hlist) & Hclean & Hstore & Hrequests).
  - reflexivity.
  - reflexivity.
  - vm_compute. reflexivity.
  - exists raw, wb. repeat split; try assumption.
    simpl in Hlist. unfold answer in Hlist. simpl in Hlist.
    injection Hlist as Hraw _. symmetry. exact Hraw.
Defined.

(** ** Construction *)

(** A construction that returns has built one client and probed it once,
    in that order, and has sent nothing else; the instance it returns holds
    that client and names the database and collection asked for.  The
    enhanced variant always builds the client with a server-selection
    timeout of 5000 ms; the baseline variant passes on its
    [server_selection_timeout_ms] and [auth_mechanism] arguments and asks
    for a direct connection. *)
Theorem construction_probes_once (cl : Client) :
  (forall user password host port db col auth_source auth_mechanism
          server_selection_timeout_ms (w w' : world cl) self,
     Baseline.__init__ user password host port db col auth_source
       auth_mechanism server_selection_timeout_ms w = (Ok self, w') ->
     events_of
       (Baseline.__init__ user password host port db col auth_source
          auth_mechanism server_selection_timeout_ms) w
     = [Call (CMongoClient
                (ConnParams host port user password auth_source
                   (Some auth_mechanism) (Some true)
                   server_selection_timeout_ms)) Returned;
        Call CPing Returned] /\
     Baseline.database self = db /\
     Baseline.collection self = Collection (Baseline._client self) db col) /\
  (forall user password host port db col authSource (w w' : world cl) self,
     Enhanced.__init__ user password host port db col authSource w
     = (Ok self, w') ->
     exists p,
       requests
         (events_of
            (Enhanced.__init__ user password host port db col authSource) w)
       = [CMongoClient p; CPing] /\
       cp_host p = host /\ cp_port p = port /\ cp_authSource p = authSource /\
       cp_serverSelectionTimeoutMS p = 5000 /\
       is_Some (Enhanced._client self) /\
       Enhanced._db_name self = db /\ Enhanced._col_name self = col).
Proof.
  split.
  - intros user password host port db col auth_source auth_mechanism
      server_selection_timeout_ms w w' self.
    unfold events_of, Baseline.__init__.
    destruct (negb (truthy user) || negb (truthy password)); [discriminate|].
    unfold_monad. simpl. repeat (store_answer; simpl); try discriminate.
    intros [= <- <-]. trace_shape. repeat split.
  - intros user password host port db col authSource w w' self.
    unfold events_of, Enhanced.__init__. unfold_monad. simpl.
    destruct (negb (truthy _) || negb (truthy _)); [discriminate|].
    repeat (store_answer; simpl); try caught_case; try discriminate.
    intros [= <- <-]. eexists. trace_shape. repeat split; eauto.
Qed.

Lemma construction_probes_once_witness :
  events_of
    (Baseline.__init__ Baseline.default_user Baseline.default_password
       "localhost" 27017 "aac" "animals" "admin" "SCRAM-SHA-256" 5000)
    (world0 up ∅)
  = [Call (CMongoClient
             (ConnParams "localhost" 27017 (VStr "aacuser") (VStr "SNHU1234")
                "admin" (Some "SCRAM-SHA-256") (Some true) 5000)) Returned;
     Call CPing Returned] /\
  Baseline.database (baseline_self up) = "aac" /\
  Baseline.collection (baseline_self up)
  = Collection (Baseline._client (baseline_self up)) "aac" "animals".
Proof.
  apply (proj1 (construction_probes_once (client up))
           Baseline.default_user Baseline.default_password
           "localhost" 27017 "aac" "animals" "admin" "SCRAM-SHA-256" 5000
           (world0 up ∅)
           (after up ∅
              [Call (CMongoClient
                       (ConnParams "localhost" 27017 (VStr "aacuser")
                          (VStr "SNHU1234") "admin" (Some "SCRAM-SHA-256")
                          (Some true) 5000)) Returned;
               Call CPing Returned])
           (baseline_self up)).
  reflexivity.
Defined.

(** A construction that cannot connect yields no instance.  When building
    the client or probing it raises [e], the constructor raises the same
    [e], in both variants; the enhanced variant first logs [e] at error
    level if it derives from [PyMongoError].  Nothing is retried: the
    failed request is the last one sent. *)
Theorem construction_failure_propagates (cl : Client) :
  (forall user password host port db col auth_source auth_mechanism
          server_selection_timeout_ms (w : world cl) c e,
     Call c (Raised e)
       ∈ events_of
           (Baseline.__init__ user password host port db col auth_source
              auth_mechanism server_selection_timeout_ms) w ->
     fst (Baseline.__init__ user password host port db col auth_source
            auth_mechanism server_selection_timeout_ms w) = Raise e /\
     last (events_of
             (Baseline.__init__ user password host port db col auth_source
                auth_mechanism server_selection_timeout_ms) w)
     = Some (Call c (Raised e))) /\
  (forall user password host port db col authSource (w : world cl) c e,
     Call c (Raised e)
       ∈ events_of
           (Enhanced.__init__ user password host port db col authSource) w ->
     fst (Enhanced.__init__ user password host port db col authSource w)
     = Raise e /\
     last (events_of
             (Enhanced.__init__ user password host port db col authSource) w)
     = Some (if is_PyMongoError e
             then Log ERROR "Failed to connect to MongoDB: %s" [LExn e]
             else Call c (Raised e)) /\
     last (requests
             (events_of
                (Enhanced.__init__ user password host port db col authSource)
                w))
     = Some c).
Proof.
  split.
  - intros user password host port db col auth_source auth_mechanism
      server_selection_timeout_ms w c e.
    unfold events_of, Baseline.__init__.
    destruct (negb (truthy user) || negb (truthy password));
      unfold_monad; simpl; repeat (store_answer; simpl); failure_leaf.
  - intros user password host port db col authSource w c e.
    unfold events_of, Enhanced.__init__. unfold_monad. simpl.
    destruct (negb (truthy _) || negb (truthy _));
      simpl; repeat (store_answer; simpl); try caught_case;
      try destruct (is_PyMongoError e) eqn:?;
      trace_shape; rewrite ?drop_all;
      intros Hin; trace_cases Hin; try congruence; repeat split.
Qed.

Lemma construction_failure_propagates_witness :
  fst (Enhanced.__init__ (VStr "u") (VStr "p") "localhost" 27017 "aac"
         "animals" "admin" (world0 down ∅)) = Raise timeout /\
  last (events_of
          (Enhanced.__init__ (VStr "u") (VStr "p") "localhost" 27017 "aac"
             "animals" "admin") (world0 down ∅))
  = Some (Log ERROR "Failed to connect to MongoDB: %s" [LExn timeout]) /\
  last (requests
          (events_of
             (Enhanced.__init__ (VStr "u") (VStr "p") "localhost" 27017 "aac"
                "animals" "admin") (world0 down ∅)))
  = Some CPing.
Proof.
  apply (proj2 (construction_failure_propagates (client down))
           (VStr "u") (VStr "p") "localhost" 27017 "aac" "animals" "admin"
           (world0 down ∅) CPing timeout).
  vm_compute. repeat constructor.
Defined.

(** The constructor of the enhanced variant never hands a credential to the
    logger.  The only things its log lines are given are the host, the port
    and, after a failure, the exception the store client raised. *)
Theorem construction_logs_no_credentials (cl : Client) user password host port
    db col authSource (w : world cl) lvl fmt args a :
  Log lvl fmt args
    ∈ events_of (Enhanced.__init__ user password host port db col authSource) w ->
  a ∈ args ->
  a = LStr host \/ a = LInt port \/
  exists c e,
    a = LExn e /\
    Call c (Raised e)
      ∈ events_of (Enhanced.__init__ user password host port db col authSource) w.
Proof.
  unfold events_of, Enhanced.__init__. unfold_monad. simpl.
  destruct (negb (truthy _) || negb (truthy _));
    simpl; repeat (store_answer; simpl); try caught_case;
    trace_shape; rewrite ?drop_all;
    intros Hin Ha; trace_cases Hin; trace_cases Ha; subst; auto;
    right; right; eexists _, _; (split; [reflexivity|]); repeat constructor.
Qed.

Lemma construction_logs_no_credentials_witness :
  LExn timeout = LStr "localhost" \/ LExn timeout = LInt 27017 \/
  exists c e,
    LExn timeout = LExn e /\
    Call c (Raised e)
      ∈ events_of
          (Enhanced.__init__ (VStr "u") (VStr "p") "localhost" 27017 "aac"
             "animals" "admin") (world0 down ∅).
Proof.
  apply (construction_logs_no_credentials (client down) (VStr "u") (VStr "p")
           "localhost" 27017 "aac" "animals" "admin" (world0 down ∅)
           ERROR "Failed to connect to MongoDB: %s" [LExn timeout]).
  - vm_compute. repeat constructor.
  - repeat constructor.
Defined.

(** ** What a successful operation of the enhanced variant logs *)

(** The last thing a successful operation of the enhanced variant does is
    to log its outcome at info level, and the line carries the value the
    caller gets: the success flag of [create], the number of documents
    [read] returns, the count [update] and [delete] return. *)
Theorem enhanced_success_logs_outcome (cl : Client)
    (self : Enhanced.AnimalShelter cl) :
  (forall data w w' success,
     Enhanced.create self data w = (Ok success, w') ->
     exists id,
       last (events_of (Enhanced.create self data) w)
       = Some (Log INFO "Inserted document with _id=%s (success=%s)"
                 [LVal id; LBool success])) /\
  (forall query projection limit sort w w' docs,
     Enhanced.read self query projection limit sort w = (Ok docs, w') ->
     last (events_of (Enhanced.read self query projection limit sort) w)
     = Some (Log INFO "Read %d document(s) from collection"
               [LInt (Z.of_nat (length docs))])) /\
  (forall query update_doc many upsert w w' n,
     Enhanced.update self query update_doc many upsert w = (Ok n, w') ->
     last (events_of (Enhanced.update self query update_doc many upsert) w)
     = Some (Log INFO "Updated %d document(s)" [LInt n])) /\
  (forall query many w w' n,
     Enhanced.delete self query many w = (Ok n, w') ->
     last (events_of (Enhanced.delete self query many) w)
     = Some (Log INFO "Deleted %d document(s)" [LInt n])).
Proof.
  refine (conj _ (conj _ (conj _ _))).
  - intros data w w' success.
    unfold events_of, Enhanced.create, Enhanced.collection.
    destruct (Enhanced._client self); explore; try discriminate;
      intros [= <- <-]; trace_shape; eexists; reflexivity.
  - intros query projection limit sort w w' docs.
    unfold events_of, Enhanced.read, Enhanced.collection.
    destruct (negb (isinstance_dict _)); [discriminate|].
    generalize (match query with VNone => VDict ∅ | _ => query end).
    clear query. intros query.
    destruct (Enhanced._client self);
      destruct sort as [[|key spec]|];
      destruct (isinstance_int limit && (0 <? int_value limit));
      unfold_monad; simpl; repeat (store_answer; simpl); try caught_case;
      try discriminate;
      intros [= <- <-]; trace_shape; reflexivity.
  - intros query update_doc many upsert w w' n.
    unfold events_of, Enhanced.update, Enhanced.collection.
    destruct (Enhanced._client self); explore; try discriminate;
      intros [= <- <-]; trace_shape; reflexivity.
  - intros query many w w' n.
    unfold events_of, Enhanced.delete, Enhanced.collection.
    destruct (Enhanced._client self); explore; try discriminate;
      intros [= <- <-]; trace_shape; reflexivity.
Qed.

Lemma enhanced_success_logs_outcome_witness :
  last (events_of
          (Enhanced.update (enhanced_self up_no_count) name_rex set_age false
             false) (world0 up_no_count ∅))
  = Some (Log INFO "Updated %d document(s)" [LInt 0]).
Proof.
  apply (proj1 (proj2 (proj2
           (enhanced_success_logs_outcome (client up_no_count)
              (enhanced_self up_no_count))))
           name_rex set_age false false (world0 up_no_count ∅)
           (after up_no_count ∅
              [Call (CUpdateOne name_rex set_age false) Returned;
               Log INFO "Updated %d document(s)" [LInt 0]])
           0).
  vm_compute. reflexivity.
Defined.

(** [create] sends exactly one request, the insert of the document as it
    was given, whatever the store answers.  (In the enhanced variant this is
    for an open instance.) *)
Theorem create_single_request (cl : Client) :
  (forall (self : Baseline.AnimalShelter cl) data w,
     is_nonempty_dict data = true ->
     requests (events_of (Baseline.create self data) w) = [CInsertOne data]) /\
  (forall (self : Enhanced.AnimalShelter cl) data w,
     is_Some (Enhanced._client self) ->
     is_nonempty_dict data = true ->
     requests (events_of (Enhanced.create self data) w) = [CInsertOne data]).
Proof.
  split.
  - intros self data w Hdata. unfold events_of, Baseline.create.
    rewrite is_nonempty_dict_guard, Hdata.
    explore; trace_shape; reflexivity.
  - intros self data w [client Hclient] Hdata.
    unfold events_of, Enhanced.create, Enhanced.collection.
    rewrite is_nonempty_dict_guard, Hdata, Hclient.
    explore; trace_shape; reflexivity.
Qed.

Lemma create_single_request_witness :
  requests (events_of (Baseline.create (baseline_self down) name_rex)
              (world0 down ∅))
  = [CInsertOne name_rex] /\
  requests (events_of (Enhanced.create (enhanced_self up) name_rex)
              (world0 up ∅))
  = [CInsertOne name_rex].
Proof.
  split.
  - apply (proj1 (create_single_request (client down))
             (baseline_self down) name_rex (world0 down ∅)).
    reflexivity.
  - apply (proj2 (create_single_request (client up))
             (enhanced_self up) name_rex (world0 up ∅));
      [eexists; reflexivity|reflexivity].
Defined.
